(** * UAFT Helper GUI: the process runner and the device-tool adapter

    A shallow embedding of [run], of class [UAFT] and of
    [App._valid_package] from [UE_UAFT_Tool.py], with the properties of
    the adapter's argument building, output parsing and error policy, and
    of the callers in [App] whose effect is on the content of the widgets
    alone: [_require_uaft], [_adb_device_info], [on_list_packages],
    [on_refresh_traces] and [on_write_cmd].

    Conventions of the embedding.
    - A Python [str] is a [string]; a character stands for a Unicode code
      point below 256.  The character classes of [str.strip],
      [str.splitlines] and [str.lower] are the ones CPython uses on that
      range.
    - [str | None] is [option string]; the truth value of such a field is
      [truthy].
    - A raised exception is a value of [exn]; a call that may raise returns
      [result A].
    - The child process and the file system are the environment: the
      outcome of a launch is given by an oracle [popen], what the child
      does to the directory tree by a function [writes], the directory
      tree by a finite map. *)

From Stdlib Require Import ZArith Lia Bool Ascii String List DecimalString.
From stdpp Require Import gmap strings list.
Import ListNotations.

Local Open Scope string_scope.
Local Open Scope list_scope.
Local Open Scope nat_scope.

(** ** Python string operations *)

Module PyStr.

Definition code (c : ascii) : nat := nat_of_ascii c.

(** [str.isspace] on one code point below 256. *)
Definition isspace (c : ascii) : bool :=
  let n := code c in
  ((9 <=? n) && (n <=? 13)) || ((28 <=? n) && (n <=? 32))
  || (n =? 133) || (n =? 160).

(** The line boundaries of [str.splitlines] below 256. *)
Definition islinebreak (c : ascii) : bool :=
  let n := code c in
  ((10 <=? n) && (n <=? 13)) || ((28 <=? n) && (n <=? 30)) || (n =? 133).

Definition is_empty (s : string) : bool :=
  match s with EmptyString => true | String _ _ => false end.

(** Truth value of a [str]: non-empty. *)
Definition nonempty (s : string) : bool := negb (is_empty s).

(** [s.lstrip()] *)
Fixpoint lstrip (s : string) : string :=
  match s with
  | EmptyString => EmptyString
  | String c r => if isspace c then lstrip r else s
  end.

(** [s.rstrip()] *)
Fixpoint rstrip (s : string) : string :=
  match s with
  | EmptyString => EmptyString
  | String c r =>
      let r' := rstrip r in
      if isspace c && is_empty r' then EmptyString else String c r'
  end.

(** [s.strip()] *)
Definition strip (s : string) : string := rstrip (lstrip s).

(** [s.lstrip(chars)] for a one-character [chars]. *)
Fixpoint lstrip_char (x : ascii) (s : string) : string :=
  match s with
  | EmptyString => EmptyString
  | String c r => if Ascii.eqb c x then lstrip_char x r else s
  end.

(** [s.lower()] on code points below 256: A-Z and the Latin-1 capitals. *)
Definition lower_char (c : ascii) : ascii :=
  let n := code c in
  if ((65 <=? n) && (n <=? 90))
     || ((192 <=? n) && (n <=? 222) && negb (n =? 215))
  then ascii_of_nat (n + 32) else c.

Fixpoint lower (s : string) : string :=
  match s with
  | EmptyString => EmptyString
  | String c r => String (lower_char c) (lower r)
  end.

(** [s.startswith(p)] *)
Definition startswith (s p : string) : bool := String.prefix p s.

(** [needle in s] *)
Fixpoint contains (needle s : string) : bool :=
  String.prefix needle s
  || match s with
     | EmptyString => false
     | String _ r => contains needle r
     end.

(** [s.endswith(suffix)] *)
Fixpoint endswith (s suffix : string) : bool :=
  String.eqb s suffix
  || match s with
     | EmptyString => false
     | String _ r => endswith r suffix
     end.

(** [s.splitlines()]: [cur] is the line read so far.  A line ends at a
    line boundary, "\r\n" counting as one; no empty last line is
    produced when the text ends with a boundary. *)
Fixpoint splitlines_from (cur : string) (s : string) : list string :=
  match s with
  | EmptyString => if is_empty cur then [] else [cur]
  | String c r =>
      if islinebreak c then
        cur :: match r with
               | String c' r' =>
                   if Ascii.eqb c "013" && Ascii.eqb c' "010"
                   then splitlines_from EmptyString r'
                   else splitlines_from EmptyString r
               | EmptyString => splitlines_from EmptyString r
               end
      else splitlines_from (cur +:+ String c EmptyString) r
  end.

Definition splitlines (s : string) : list string :=
  splitlines_from EmptyString s.

(** [sep.join(xs)] *)
Fixpoint join (sep : string) (xs : list string) : string :=
  match xs with
  | [] => EmptyString
  | [x] => x
  | x :: rest => x +:+ sep +:+ join sep rest
  end.

(** [s.split(sep)] for a one-character separator. *)
Fixpoint split_from (sep : ascii) (cur : string) (s : string) : list string :=
  match s with
  | EmptyString => [cur]
  | String c r =>
      if Ascii.eqb c sep then cur :: split_from sep EmptyString r
      else split_from sep (cur +:+ String c EmptyString) r
  end.

Definition split (sep : ascii) (s : string) : list string :=
  split_from sep EmptyString s.

End PyStr.

Definition LF : string := String "010" EmptyString.
Definition TAB : string := String "009" EmptyString.


(** ** Exceptions and results *)

(** The exceptions that occur in the modelled code, each with [str(e)]. *)
Inductive exn : Type :=
| RuntimeError (msg : string)
| PermissionError (msg : string)
| FileNotFoundError (msg : string)
| FileExistsError (msg : string)
| NotADirectoryError (msg : string)
| OtherOSError (msg : string)
| IndexError (msg : string)
| UnicodeDecodeError (msg : string).

Inductive result (A : Type) : Type :=
| Ok (a : A)
| Raise (e : exn).
Arguments Ok {A} a.
Arguments Raise {A} e.

(** ** Paths ([pathlib], POSIX flavour) *)

Record Path : Type := mkPath { root : string; parts : list string }.

Fixpoint leading_slashes (s : string) : nat :=
  match s with
  | String "/" r => S (leading_slashes r)
  | _ => 0
  end.

(** [Path(s)]: two leading slashes are kept, any other number of them is
    one root; empty components and "." are dropped. *)
Definition Path_of (s : string) : Path :=
  {| root := match leading_slashes s with
             | 0 => ""
             | 2 => "//"
             | _ => "/"
             end;
     parts := List.filter
                (fun seg => PyStr.nonempty seg && negb (String.eqb seg "."))
                (PyStr.split "/" s) |}.

(** [str(p)] *)
Definition str_of_path (p : Path) : string :=
  match root p, parts p with
  | EmptyString, [] => "."
  | r, ps => r +:+ PyStr.join "/" ps
  end.

(** [p.name] *)
Definition name (p : Path) : string := List.last (parts p) "".

(** [p / s] for a [str] operand. *)
Definition joinpath (p : Path) (s : string) : Path :=
  let q := Path_of s in
  if PyStr.is_empty (root q)
  then {| root := root p; parts := parts p ++ parts q |}
  else q.

(** ** The directory tree *)

Inductive node : Type := Dir | File.

(** The working directory and the entries of the tree, keyed by the
    components of their absolute path.  Components are plain names: ".."
    and symbolic links are outside the model. *)
Record FS : Type := mkFS { cwd : list string; nodes : gmap (list string) node }.

Definition key (fs : FS) (p : Path) : list string :=
  if PyStr.is_empty (root p) then cwd fs ++ parts p else parts p.

(** The root directory always exists. *)
Definition node_at (fs : FS) (k : list string) : option node :=
  match k with
  | [] => Some Dir
  | _ => nodes fs !! k
  end.

Definition is_dir (fs : FS) (p : Path) : bool :=
  match node_at fs (key fs p) with
  | Some Dir => true
  | _ => false
  end.

(** [str.isprintable] on one code point below 256. *)
Definition isprintable (c : ascii) : bool :=
  let n := PyStr.code c in
  ((32 <=? n) && (n <=? 126)) || ((161 <=? n) && (n <=? 172))
  || ((174 <=? n) && (n <=? 255)).

Definition hex_digit (n : nat) : ascii :=
  List.nth n ["0"; "1"; "2"; "3"; "4"; "5"; "6"; "7"; "8"; "9";
              "a"; "b"; "c"; "d"; "e"; "f"]%char "0"%char.

(** One character of [repr(s)], between the quotes [q]. *)
Definition repr_char (q c : ascii) : string :=
  if Ascii.eqb c "092" then String "092" (String "092" EmptyString)
  else if Ascii.eqb c q then String "092" (String q EmptyString)
  else if Ascii.eqb c "009" then String "092" "t"
  else if Ascii.eqb c "010" then String "092" "n"
  else if Ascii.eqb c "013" then String "092" "r"
  else if isprintable c then String c EmptyString
  else String "092"
         (String "x"
            (String (hex_digit (PyStr.code c / 16))
               (String (hex_digit (PyStr.code c mod 16)) EmptyString))).

Fixpoint repr_chars (q : ascii) (s : string) : string :=
  match s with
  | EmptyString => EmptyString
  | String c r => repr_char q c +:+ repr_chars q r
  end.

(** [repr(s)] of a [str]: in double quotes when [s] holds a single quote
    and no double quote, in single quotes otherwise. *)
Definition py_repr (s : string) : string :=
  let q : ascii :=
    if PyStr.contains "'" s
       && negb (PyStr.contains (String "034" EmptyString) s)
    then "034"%char else "039"%char in
  String q (repr_chars q s +:+ String q EmptyString).

(** [str(e)] of an [OSError] with error number, error text and file
    name. *)
Definition os_error_text (errno_text : string) (p : Path) : string :=
  errno_text +:+ ": " +:+ py_repr (str_of_path p).

(** [os.mkdir(p)].  A path without component is the working directory or
    the root: nothing is made there. *)
Definition os_mkdir (fs : FS) (p : Path) : result FS :=
  let k := key fs p in
  match node_at fs k with
  | Some _ => Raise (FileExistsError (os_error_text "[Errno 17] File exists" p))
  | None =>
      match parts p with
      | [] =>
          Raise (FileNotFoundError
                   (os_error_text "[Errno 2] No such file or directory" p))
      | _ :: _ =>
          match node_at fs (removelast k) with
          | None =>
              Raise (FileNotFoundError
                       (os_error_text "[Errno 2] No such file or directory" p))
          | Some File =>
              Raise (NotADirectoryError
                       (os_error_text "[Errno 20] Not a directory" p))
          | Some Dir => Ok {| cwd := cwd fs; nodes := <[k := Dir]> (nodes fs) |}
          end
      end
  end.

(** [p.mkdir(parents=False, exist_ok=True)] *)
Definition mkdir_exist_ok (fs : FS) (p : Path) : result FS :=
  match os_mkdir fs p with
  | Ok fs' => Ok fs'
  | Raise (FileNotFoundError m) => Raise (FileNotFoundError m)
  | Raise e => if is_dir fs p then Ok fs else Raise e
  end.

(** [p.mkdir(parents=True, exist_ok=True)], by recursion on the components
    of [p] from the last one: [rparts] is [parts p] reversed, and the
    parent of a path with no component is the path itself. *)
Fixpoint mkdir_parents_from (r : string) (rparts : list string) (fs : FS)
  : result FS :=
  let p := {| root := r; parts := rev rparts |} in
  match os_mkdir fs p with
  | Ok fs' => Ok fs'
  | Raise (FileNotFoundError m) =>
      match rparts with
      | [] => Raise (FileNotFoundError m)
      | _ :: rparent =>
          match mkdir_parents_from r rparent fs with
          | Raise e => Raise e
          | Ok fs1 => mkdir_exist_ok fs1 p
          end
      end
  | Raise e => if is_dir fs p then Ok fs else Raise e
  end.

Definition mkdir_parents_exist_ok (fs : FS) (p : Path) : result FS :=
  mkdir_parents_from (root p) (rev (parts p)) fs.

(** ** The process runner *)

(** What starting a child process and waiting for it gives:
    - [Exited]: the child ran, and [proc.communicate()] returned its
      output decoded as text;
    - [CommunicateFails]: the child ran and ended with [code], and
      [proc.communicate()] raised [e], as it does with
      [UnicodeDecodeError] when the output is no text in the expected
      encoding;
    - [LaunchFails]: [subprocess.Popen] raised [e] and no child ran. *)
Inductive launch : Type :=
| Exited (code : Z) (out err : string)
| CommunicateFails (code : Z) (e : exn)
| LaunchFails (e : exn).

Definition Popen : Type := list string -> option string -> launch.

(** The message of the [RuntimeError] raised by [run], with [cmd[0]] and
    [str(e)] in their places.  The dash and the hyphen of the source text
    stand as their UTF-8 bytes. *)
Definition launch_message (exe original : string) : string :=
  "Permission error launching: " +:+ exe
  +:+ " — check that it's an executable (.exe on Windows) and not blocked (Right‑click > Properties > Unblock). Original: "
  +:+ original.

(** [run(cmd, cwd)].  Only a [PermissionError] of [subprocess.Popen] is
    caught; [cmd[0]] in the handler raises [IndexError] on an empty [cmd].
    [proc.communicate()] stands after the [try]: what it raises leaves
    [run] as it is. *)
Definition run (popen : Popen) (cmd : list string) (cwd : option Path)
  : result (Z * string * string) :=
  match popen cmd (option_map str_of_path cwd) with
  | LaunchFails (PermissionError m) =>
      match cmd with
      | exe :: _ => Raise (RuntimeError (launch_message exe m))
      | [] => Raise (IndexError "list index out of range")
      end
  | LaunchFails e => Raise e
  | CommunicateFails _ e => Raise e
  | Exited code out err => Ok (code, out, err)
  end.

(** ** The adapter *)

Record UAFT : Type := mkUAFT { uaft_path : Path }.

(** Truth value of a [str | None] field. *)
Definition truthy (o : option string) : bool :=
  match o with
  | Some s => PyStr.nonempty s
  | None => false
  end.

Definition the (o : option string) : string :=
  match o with Some s => s | None => "" end.

(** [a or b] on strings. *)
Definition py_or (a b : string) : string :=
  if PyStr.nonempty a then a else b.

Definition _base_args (self : UAFT) (serial ip port package token : option string)
  : list string :=
  let args := [str_of_path (uaft_path self)] in
  let args :=
    if truthy serial then args ++ ["-s"; the serial]
    else if truthy ip then args ++ ["-ip"; the ip]
    else args in
  let args := if truthy port then args ++ ["-t"; the port] else args in
  let args := if truthy package then args ++ ["-p"; the package] else args in
  let args := if truthy token then args ++ ["-k"; the token] else args in
  args.

(** The two list comprehensions of [devices]. *)
Definition devices_lines (out : string) : list string :=
  let lines :=
    map (fun ln => PyStr.lstrip_char "@" (PyStr.strip ln))
        (List.filter (fun ln => PyStr.nonempty (PyStr.strip ln))
                     (PyStr.splitlines out)) in
  List.filter
    (fun ln => negb (PyStr.contains " " ln)
               && negb (String.eqb (PyStr.lower ln) "devices"))
    lines.

Definition devices (popen : Popen) (self : UAFT) : result (list string) :=
  match run popen [str_of_path (uaft_path self); "devices"] None with
  | Raise e => Raise e
  | Ok (code, out, err) =>
      if negb (Z.eqb code 0) then Raise (RuntimeError (py_or err out))
      else Ok (devices_lines out)
  end.

Definition packages_args (self : UAFT) (serial : option string) : list string :=
  let args := [str_of_path (uaft_path self)] in
  let args := if truthy serial then args ++ ["-s"; the serial] else args in
  args ++ ["packages"].

(** The list comprehension of [packages]. *)
Definition packages_lines (out : string) : list string :=
  map PyStr.strip
      (List.filter
         (fun ln => PyStr.nonempty (PyStr.strip ln) && PyStr.contains "." ln)
         (PyStr.splitlines out)).

Definition packages (popen : Popen) (self : UAFT) (serial : option string)
  : result (list string) :=
  match run popen (packages_args self serial) None with
  | Raise e => Raise e
  | Ok (code, out, err) =>
      if negb (Z.eqb code 0) then Raise (RuntimeError (py_or err out))
      else Ok (packages_lines out)
  end.

Definition push_commandfile (popen : Popen) (self : UAFT)
  (serial ip port : option string) (package : string) (token : option string)
  (local_cmd : string) : result string :=
  let args := _base_args self serial ip port (Some package) token
              ++ ["push"; local_cmd; "^commandfile"] in
  match run popen args None with
  | Raise e => Raise e
  | Ok (code, out, err) =>
      if negb (Z.eqb code 0) then Raise (RuntimeError (py_or err out))
      else Ok out
  end.

(** The loop of [list_traces] over the output lines. *)
Fixpoint traces_loop (lines files : list string) : list string :=
  match lines with
  | [] => files
  | ln :: rest =>
      let ln := PyStr.strip ln in
      if PyStr.endswith ln ".trace" || PyStr.endswith ln ".utrace"
      then traces_loop rest (files ++ [ln])
      else traces_loop rest files
  end.

Definition list_traces_args (self : UAFT)
  (serial ip port : option string) (package : string) (token : option string)
  : list string :=
  _base_args self serial ip port (Some package) token
  ++ ["ls"; "-R"; "^saved/Traces"].

Definition list_traces (popen : Popen) (self : UAFT)
  (serial ip port : option string) (package : string) (token : option string)
  : result (list string) :=
  match run popen (list_traces_args self serial ip port package token) None with
  | Raise e => Raise e
  | Ok (code, out, err) =>
      if negb (Z.eqb code 0) then Ok []
      else Ok (traces_loop (PyStr.splitlines out) [])
  end.

Definition pull_trace_args (self : UAFT)
  (serial ip port : option string) (package : string) (token : option string)
  (remote_file : string) (local_dir : Path) : list string :=
  _base_args self serial ip port (Some package) token
  ++ ["pull"; remote_file; str_of_path local_dir].

(** What a child process does to the directory tree while it runs, by
    its argument vector. *)
Definition Writes : Type := list string -> FS -> FS.

(** The tree after [run]: as the child left it, or unchanged when no
    child ran. *)
Definition tree_after (popen : Popen) (writes : Writes) (cmd : list string)
  (fs : FS) : FS :=
  match popen cmd None with
  | LaunchFails _ => fs
  | Exited _ _ _ | CommunicateFails _ _ => writes cmd fs
  end.

(** [pull_trace] threads the directory tree: the result comes with the
    tree as [mkdir] and then the tool left it. *)
Definition pull_trace (popen : Popen) (writes : Writes) (self : UAFT)
  (serial ip port : option string) (package : string) (token : option string)
  (remote_file : string) (local_dir : Path) (fs : FS) : result Path * FS :=
  match mkdir_parents_exist_ok fs local_dir with
  | Raise e => (Raise e, fs)
  | Ok fs1 =>
      let args := pull_trace_args self serial ip port package token
                    remote_file local_dir in
      let fs2 := tree_after popen writes args fs1 in
      match run popen args None with
      | Raise e => (Raise e, fs2)
      | Ok (code, out, err) =>
          if negb (Z.eqb code 0) then (Raise (RuntimeError (py_or err out)), fs2)
          else (Ok (joinpath local_dir (name (Path_of remote_file))), fs2)
      end
  end.

(** ** Regular expressions ([re.fullmatch]) *)

Inductive regex : Type :=
| Empty
| Eps
| Class (p : ascii -> bool)
| Cat (r1 r2 : regex)
| Alt (r1 r2 : regex)
| Star (r : regex)
| Plus (r : regex).

Fixpoint nullable (r : regex) : bool :=
  match r with
  | Empty => false
  | Eps => true
  | Class _ => false
  | Cat r1 r2 => nullable r1 && nullable r2
  | Alt r1 r2 => nullable r1 || nullable r2
  | Star _ => true
  | Plus r => nullable r
  end.

(** The derivative of [r] by the character [c]. *)
Fixpoint deriv (c : ascii) (r : regex) : regex :=
  match r with
  | Empty => Empty
  | Eps => Empty
  | Class p => if p c then Eps else Empty
  | Cat r1 r2 =>
      if nullable r1 then Alt (Cat (deriv c r1) r2) (deriv c r2)
      else Cat (deriv c r1) r2
  | Alt r1 r2 => Alt (deriv c r1) (deriv c r2)
  | Star r => Cat (deriv c r) (Star r)
  | Plus r => Cat (deriv c r) (Star r)
  end.

(** [bool(re.fullmatch(r, s))] *)
Fixpoint fullmatch (r : regex) (s : string) : bool :=
  match s with
  | EmptyString => nullable r
  | String c s' => fullmatch (deriv c r) s'
  end.

(** The class [[A-Za-z0-9_]]. *)
Definition word_char (c : ascii) : bool :=
  let n := PyStr.code c in
  ((65 <=? n) && (n <=? 90)) || ((97 <=? n) && (n <=? 122))
  || ((48 <=? n) && (n <=? 57)) || (n =? 95).

Definition dot_char (c : ascii) : bool := Ascii.eqb c ".".

(** The pattern of [_valid_package]. *)
Definition package_pattern : regex :=
  Cat (Plus (Class word_char))
      (Plus (Cat (Class dot_char) (Plus (Class word_char)))).

Definition _valid_package (pkg : string) : bool :=
  fullmatch package_pattern pkg.

(** ** Notions used in the statements *)

(** The options of an argument vector, read after the executable as
    (flag, value) pairs. *)
Fixpoint pairs_of (args : list string) : list (string * string) :=
  match args with
  | f :: v :: rest => (f, v) :: pairs_of rest
  | _ => []
  end.

Definition options_of (args : list string) : list (string * string) :=
  pairs_of (tl args).

(** A field given as the empty string, taken as absent. *)
Definition absent_if_empty (o : option string) : option string :=
  if truthy o then o else None.

(** The rule by which [devices] drops an output line: trimmed, it is
    empty or contains a space, or without its leading "@" characters it is
    the word "devices" in any letter case. *)
Definition device_line_dropped (ln : string) : bool :=
  let t := PyStr.strip ln in
  PyStr.is_empty t
  || PyStr.contains " " t
  || String.eqb (PyStr.lower (PyStr.lstrip_char "@" t)) "devices".

(** What [devices] reports for a line it keeps. *)
Definition device_of_line (ln : string) : string :=
  PyStr.lstrip_char "@" (PyStr.strip ln).

(** The rule by which [packages] keeps an output line. *)
Definition package_line_kept (ln : string) : bool :=
  PyStr.nonempty ln && PyStr.contains "." ln.

(** [n] characters "@". *)
Fixpoint at_signs (n : nat) : string :=
  match n with
  | 0 => EmptyString
  | S k => String "@" (at_signs k)
  end.

Definition is_file (fs : FS) (p : Path) : bool :=
  match node_at fs (key fs p) with
  | Some File => true
  | _ => false
  end.



(** Every entry of the tree lies in a directory. *)
Definition tree_ok (fs : FS) : Prop :=
  forall k x, is_Some (nodes fs !! (k ++ [x])) -> node_at fs k = Some Dir.

(** [fs'] is [fs] with some directories added. *)
Definition grows (fs fs' : FS) : Prop :=
  cwd fs' = cwd fs
  /\ forall k, node_at fs' k = node_at fs k
               \/ (node_at fs k = None /\ node_at fs' k = Some Dir).

(** [s] is in the language of [r]. *)
Inductive Matches : regex -> string -> Prop :=
| MEps : Matches Eps EmptyString
| MClass p c : p c = true -> Matches (Class p) (String c EmptyString)
| MCat r1 r2 s1 s2 :
    Matches r1 s1 -> Matches r2 s2 -> Matches (Cat r1 r2) (s1 +:+ s2)
| MAltL r1 r2 s : Matches r1 s -> Matches (Alt r1 r2) s
| MAltR r1 r2 s : Matches r2 s -> Matches (Alt r1 r2) s
| MStarNil r : Matches (Star r) EmptyString
| MStarApp r s1 s2 :
    Matches r s1 -> Matches (Star r) s2 -> Matches (Star r) (s1 +:+ s2)
| MPlus r s1 s2 :
    Matches r s1 -> Matches (Star r) s2 -> Matches (Plus r) (s1 +:+ s2).

(** Every character of [s] satisfies [p]. *)
Fixpoint all_chars (p : ascii -> bool) (s : string) : bool :=
  match s with
  | EmptyString => true
  | String c r => p c && all_chars p r
  end.

(** A segment of a package identifier: one or more letters, digits or
    underscores. *)
Definition segment (s : string) : bool :=
  PyStr.nonempty s && all_chars word_char s.

(** The shape of a package identifier in words: cut at the dots, it has
    at least two segments and every piece is a segment. *)
Definition valid_package_spec (pkg : string) : bool :=
  let pieces := PyStr.split "." pkg in
  (2 <=? length pieces) && forallb segment pieces.

(** The pieces of a dotted name put together again: [x.y.z]. *)
Fixpoint dotted (pieces : list string) : string :=
  match pieces with
  | [] => EmptyString
  | x :: rest => String "." (x +:+ dotted rest)
  end.

(** ** Notions used in the further properties *)

(** [str(e)] *)
Definition str_of_exn (e : exn) : string :=
  match e with
  | RuntimeError m | PermissionError m | FileNotFoundError m
  | FileExistsError m | NotADirectoryError m | OtherOSError m
  | IndexError m | UnicodeDecodeError m => m
  end.

(** [s] holds no line boundary. *)
Definition no_linebreak (s : string) : bool :=
  all_chars (fun c => negb (PyStr.islinebreak c)) s.

(** [s] holds no whitespace. *)
Definition no_space (s : string) : bool :=
  all_chars (fun c => negb (PyStr.isspace c)) s.

Definition CRLF : string := String "013" LF.

(** The text whose lines are [lines], each ended by [eol]. *)
Fixpoint unlines (eol : string) (lines : list string) : string :=
  match lines with
  | [] => EmptyString
  | l :: rest => l +:+ eol +:+ unlines eol rest
  end.

(** The test of [list_traces] on a trimmed line. *)
Definition is_trace_name (ln : string) : bool :=
  PyStr.endswith ln ".trace" || PyStr.endswith ln ".utrace".

(** The path whose components are the first [n] of [p]. *)
Definition ancestor (n : nat) (p : Path) : Path :=
  {| root := root p; parts := firstn n (parts p) |}.

(** ** The callers in [App] *)

(** What the window shows: a line added to the log by [_log], or an error
    reported by [_err], which adds it to the log and shows it in a message
    box.  The clock time that [_log] puts before the message is left
    out. *)
Inductive ui_event : Type :=
| Log (msg : string)
| Err (text : string).

(** The widgets the modelled handlers read or change, by their content:
    the text of the line and text edits, the items and the current row of
    the two lists, and what was logged or reported so far. *)
Record App : Type := mkApp {
  ui_uaft_path : string;
  ui_security_token : string;
  ui_port : string;
  ui_serial : string;
  ui_ip : string;
  ui_package : string;
  ui_trace_args : string;
  ui_pkg_list : list string;
  ui_pkg_row : option nat;
  ui_trace_list : list string;
  ui_trace_row : option nat;
  ui_events : list ui_event
}.

Definition add_event (app : App) (ev : ui_event) : App :=
  {| ui_uaft_path := ui_uaft_path app;
     ui_security_token := ui_security_token app;
     ui_port := ui_port app;
     ui_serial := ui_serial app;
     ui_ip := ui_ip app;
     ui_package := ui_package app;
     ui_trace_args := ui_trace_args app;
     ui_pkg_list := ui_pkg_list app;
     ui_pkg_row := ui_pkg_row app;
     ui_trace_list := ui_trace_list app;
     ui_trace_row := ui_trace_row app;
     ui_events := ui_events app ++ [ev] |}.

Definition _log (app : App) (msg : string) : App := add_event app (Log msg).

(** [_err(e)] with [text = str(e)]. *)
Definition _err (app : App) (text : string) : App := add_event app (Err text).

(** [pkg_list.clear()], [addItem] for each name, and for a non-empty list
    [setCurrentRow(0)] and [package.setText(pkgs[0])]. *)
Definition show_packages (app : App) (pkgs : list string) : App :=
  {| ui_uaft_path := ui_uaft_path app;
     ui_security_token := ui_security_token app;
     ui_port := ui_port app;
     ui_serial := ui_serial app;
     ui_ip := ui_ip app;
     ui_package := match pkgs with
                   | [] => ui_package app
                   | first :: _ => first
                   end;
     ui_trace_args := ui_trace_args app;
     ui_pkg_list := pkgs;
     ui_pkg_row := match pkgs with
                   | [] => None
                   | _ :: _ => Some 0
                   end;
     ui_trace_list := ui_trace_list app;
     ui_trace_row := ui_trace_row app;
     ui_events := ui_events app |}.

(** [trace_list.clear()] and [addItem] for each name. *)
Definition show_traces (app : App) (traces : list string) : App :=
  {| ui_uaft_path := ui_uaft_path app;
     ui_security_token := ui_security_token app;
     ui_port := ui_port app;
     ui_serial := ui_serial app;
     ui_ip := ui_ip app;
     ui_package := ui_package app;
     ui_trace_args := ui_trace_args app;
     ui_pkg_list := ui_pkg_list app;
     ui_pkg_row := ui_pkg_row app;
     ui_trace_list := traces;
     ui_trace_row := None;
     ui_events := ui_events app |}.

(** [str(n)] for a length. *)
Definition str_of_nat (n : nat) : string :=
  NilEmpty.string_of_uint (Nat.to_uint n).

(** [s.strip() or None] *)
Definition strip_or_None (s : string) : option string :=
  let t := PyStr.strip s in
  if PyStr.nonempty t then Some t else None.

(** [s.rfind(x)]: the index of the last [x] in [s]. *)
Fixpoint rfind (x : ascii) (s : string) : option nat :=
  match s with
  | EmptyString => None
  | String c r =>
      match rfind x r with
      | Some i => Some (S i)
      | None => if Ascii.eqb c x then Some 0 else None
      end
  end.

(** [s[i:]] *)
Fixpoint from_index (i : nat) (s : string) : string :=
  match i, s with
  | S k, String _ r => from_index k r
  | _, _ => s
  end.

(** [p.suffix] (pathlib of Python 3.9 to 3.12). *)
Definition suffix (p : Path) : string :=
  let nm := name p in
  match rfind "." nm with
  | Some i =>
      if (0 <? i) && (i <? String.length nm - 1) then from_index i nm
      else EmptyString
  | None => EmptyString
  end.

(** [p.exists()] *)
Definition path_exists_in (fs : FS) (p : Path) : bool :=
  match node_at fs (key fs p) with
  | Some _ => true
  | None => false
  end.

Definition uaft_missing_message : string :=
  "Pick UnrealAndroidFileTool.exe first (Tool Paths → Browse UAFT…). It's usually at Engine/Binaries/DotNET/Android/<platform>/UnrealAndroidFileTool.exe".

Definition uaft_folder_message : string :=
  "The selected UAFT path is a folder. Please select the UnrealAndroidFileTool executable (…/UnrealAndroidFileTool.exe)".

Definition uaft_exe_warning : string :=
  "Warning: UAFT on Windows should be an .exe — make sure you picked UnrealAndroidFileTool.exe".

Definition pick_uaft_message : string :=
  "Pick UnrealAndroidFileTool.exe first (Tool Paths → Browse UAFT…) then try again.".

(** [_require_uaft]: [platform] is [sys.platform]; the result comes with
    the window, to whose log the warning may have been added. *)
Definition _require_uaft (platform : string) (fs : FS) (app : App)
  : result UAFT * App :=
  let p := Path_of (PyStr.strip (ui_uaft_path app)) in
  if negb (path_exists_in fs p) then
    (Raise (RuntimeError uaft_missing_message), app)
  else if negb (is_file fs p) then
    (Raise (RuntimeError uaft_folder_message), app)
  else
    let app :=
      if PyStr.startswith platform "win"
         && negb (String.eqb (PyStr.lower (suffix p)) ".exe")
      then _log app uaft_exe_warning
      else app in
    (Ok {| uaft_path := p |}, app).

(** [_adb_device_info(serial)]: any exception gives the placeholder
    pair. *)
Definition _adb_device_info (popen : Popen) (serial : string)
  : string * string :=
  match run popen ["adb"; "-s"; serial; "shell"; "getprop";
                   "ro.product.manufacturer"] None with
  | Raise _ => ("?", serial)
  | Ok (code, out, err) =>
      let make := if Z.eqb code 0 then PyStr.strip out else "?" in
      match run popen ["adb"; "-s"; serial; "shell"; "getprop";
                       "ro.product.model"] None with
      | Raise _ => ("?", serial)
      | Ok (code, out, err) =>
          let model := if Z.eqb code 0 then PyStr.strip out else serial in
          (make, model)
      end
  end.

(** The handler of exceptions in [on_list_devices] and
    [on_list_packages]. *)
Definition listing_error (app : App) (e : exn) : App :=
  if PyStr.contains "UnrealAndroidFileTool" (str_of_exn e)
     || PyStr.contains "valid UnrealAndroidFileTool path" (str_of_exn e)
  then _err app pick_uaft_message
  else _err app (str_of_exn e).

Definition on_list_packages (platform : string) (fs : FS) (popen : Popen)
  (app : App) : App :=
  match _require_uaft platform fs app with
  | (Raise e, app) => listing_error app e
  | (Ok uaft, app) =>
      let dev := strip_or_None (ui_serial app) in
      match packages popen uaft dev with
      | Raise e => listing_error app e
      | Ok pkgs =>
          _log (show_packages app pkgs)
               ("Found " +:+ str_of_nat (length pkgs) +:+ " package(s) with AFS")
      end
  end.

(** The connection parameters as the handlers read them from the window:
    serial, ip, port, package and token. *)
Definition connection (app : App)
  : option string * option string * option string * string * option string :=
  let serial := strip_or_None (ui_serial app) in
  let ip := if truthy serial then None else strip_or_None (ui_ip app) in
  let port := strip_or_None (ui_port app) in
  let pkg := PyStr.strip (ui_package app) in
  let token := strip_or_None (ui_security_token app) in
  (serial, ip, port, pkg, token).

Definition on_refresh_traces (platform : string) (fs : FS) (popen : Popen)
  (app : App) : App :=
  match _require_uaft platform fs app with
  | (Raise e, app) => _err app (str_of_exn e)
  | (Ok uaft, app) =>
      let '(serial, ip, port, pkg, token) := connection app in
      match list_traces popen uaft serial ip port pkg token with
      | Raise e => _err app (str_of_exn e)
      | Ok traces =>
          _log (show_traces app traces)
               ("Found " +:+ str_of_nat (length traces)
                +:+ " trace(s) under ^saved/Traces")
      end
  end.

(** The directory tree with the text of its regular files. *)
Record Disk : Type := mkDisk { tree : FS; texts : gmap (list string) string }.

(** [p.write_text(content)]: the file is made or overwritten; a directory
    at [p], or a parent that is missing or is a regular file, is an
    error. *)
Definition write_text (d : Disk) (p : Path) (content : string) : result Disk :=
  let k := key (tree d) p in
  match node_at (tree d) k with
  | Some Dir => Raise (OtherOSError (os_error_text "[Errno 21] Is a directory" p))
  | Some File => Ok {| tree := tree d; texts := <[k := content]> (texts d) |}
  | None =>
      match node_at (tree d) (removelast k) with
      | None =>
          Raise (FileNotFoundError
                   (os_error_text "[Errno 2] No such file or directory" p))
      | Some File =>
          Raise (NotADirectoryError
                   (os_error_text "[Errno 20] Not a directory" p))
      | Some Dir =>
          Ok {| tree := {| cwd := cwd (tree d);
                           nodes := <[k := File]> (nodes (tree d)) |};
                texts := <[k := content]> (texts d) |}
      end
  end.

Definition package_required_message : string := "Package is required".

Definition package_invalid_message : string :=
  "Package looks invalid. Use Android package format like 'com.company.game' (no ':' or spaces)".

Definition trace_args_required_message : string :=
  "Please enter trace arguments to write to UECommandLine.txt".

(** [on_write_cmd]: [home] is [Path.home()]. *)
Definition on_write_cmd (platform : string) (home : Path) (popen : Popen)
  (app : App) (d : Disk) : App * Disk :=
  match _require_uaft platform (tree d) app with
  | (Raise e, app) => (_err app (str_of_exn e), d)
  | (Ok uaft, app) =>
      let '(serial, ip, port, pkg, token) := connection app in
      if negb (PyStr.nonempty pkg) then
        (_err app package_required_message, d)
      else if negb (_valid_package pkg) then
        (_err app package_invalid_message, d)
      else
        let content := PyStr.strip (ui_trace_args app) in
        if negb (PyStr.nonempty content) then
          (_err app trace_args_required_message, d)
        else
          let tmp := joinpath home "UECommandLine.txt" in
          match write_text d tmp content with
          | Raise e => (_err app (str_of_exn e), d)
          | Ok d =>
              match push_commandfile popen uaft serial ip port pkg token
                      (str_of_path tmp) with
              | Raise e => (_err app (str_of_exn e), d)
              | Ok out =>
                  (_log app ("Pushed UECommandLine.txt to ^commandfile"
                             +:+ LF +:+ out), d)
              end
          end
  end.

Definition DEFAULT_TRACE_ARGS : string :=
  "-tracehost=127.0.0.1 -trace=Bookmark,Frame,CPU,GPU,LoadTime,File "
  +:+ "-cpuprofilertrace -statnamedevents -filetrace -loadtimetrace" +:+ LF
  +:+ "For Memory Insights: include -trace=default,memory (and ensure Dev build)"
  +:+ LF.

(** The window as [App.__init__] leaves it, with a tool path, a serial and
    a package typed in. *)
Definition window (tool serial package : string) : App :=
  {| ui_uaft_path := tool;
     ui_security_token := "";
     ui_port := "";
     ui_serial := serial;
     ui_ip := "127.0.0.1";
     ui_package := package;
     ui_trace_args := DEFAULT_TRACE_ARGS;
     ui_pkg_list := [];
     ui_pkg_row := None;
     ui_trace_list := [];
     ui_trace_row := None;
     ui_events := [] |}.

(** * Properties *)

(** ** The string and path operations on examples *)

Example splitlines_boundaries :
  PyStr.splitlines ("a" +:+ LF +:+ "b" +:+ String "013" LF +:+ LF +:+ "c" +:+ LF)
  = ["a"; "b"; ""; "c"].
Proof. reflexivity. Qed.

Example strip_whitespace : PyStr.strip ("  a b" +:+ TAB +:+ LF) = "a b".
Proof. reflexivity. Qed.

Example lower_mixed : PyStr.lower "DeViCeS_9" = "devices_9".
Proof. reflexivity. Qed.

Example Path_of_components :
  Path_of "//a/./b//c/" = {| root := "//"; parts := ["a"; "b"; "c"] |}
  /\ str_of_path (Path_of "a/./b/") = "a/b"
  /\ str_of_path (Path_of "") = "."
  /\ name (Path_of "^saved/Traces/Run2.utrace") = "Run2.utrace"
  /\ name (Path_of "/") = "".
Proof. repeat split; reflexivity. Qed.

(** ** String lemmas *)

Lemma prefix_append (x b : string) : String.prefix x (x +:+ b) = true.
Proof.
  induction x as [|c x IH]; simpl.
  - destruct b; reflexivity.
  - destruct (ascii_dec c c) as [_|N]; [exact IH | congruence].
Qed.

Lemma contains_unfold (x s : string) :
  PyStr.contains x s
  = String.prefix x s
    || match s with
       | EmptyString => false
       | String _ r => PyStr.contains x r
       end.
Proof. destruct s; reflexivity. Qed.

Lemma contains_here (x b : string) : PyStr.contains x (x +:+ b) = true.
Proof. rewrite contains_unfold, prefix_append. reflexivity. Qed.

Lemma contains_append (a x b : string) :
  PyStr.contains x (a +:+ x +:+ b) = true.
Proof.
  induction a as [|c a IH].
  - change ("" +:+ x +:+ b) with (x +:+ b). apply contains_here.
  - change (String c a +:+ x +:+ b) with (String c (a +:+ x +:+ b)).
    rewrite contains_unfold, IH. apply orb_true_r.
Qed.

Lemma endswith_refl (m : string) : PyStr.endswith m m = true.
Proof. destruct m; simpl; rewrite ?String.eqb_refl, ?Ascii.eqb_refl; reflexivity. Qed.

Lemma endswith_append (a s m : string) :
  PyStr.endswith s m = true -> PyStr.endswith (a +:+ s) m = true.
Proof.
  intros H. induction a as [|c a IH].
  - exact H.
  - change (String c a +:+ s) with (String c (a +:+ s)).
    unfold PyStr.endswith; fold PyStr.endswith.
    rewrite IH. apply orb_true_r.
Qed.

(** ** The process runner *)

Section Runner.

Variable popen : Popen.

Lemma run_exited cmd cwd code out err :
  popen cmd (option_map str_of_path cwd) = Exited code out err ->
  run popen cmd cwd = Ok (code, out, err).
Proof. intros H. unfold run. rewrite H. reflexivity. Qed.

(** C2, as the code has it: a launch that fails with a permission error
    raises a [RuntimeError] whose message contains the attempted
    executable path and the text of the original error; any other launch
    failure, a missing executable included, leaves [run] as the exception
    [Popen] raised. *)
Theorem run_launch_failure exe rest cwd e :
  popen (exe :: rest) (option_map str_of_path cwd) = LaunchFails e ->
  match e with
  | PermissionError m =>
      run popen (exe :: rest) cwd = Raise (RuntimeError (launch_message exe m))
      /\ PyStr.contains exe (launch_message exe m) = true
      /\ PyStr.endswith (launch_message exe m) m = true
  | _ => run popen (exe :: rest) cwd = Raise e
  end.
Proof.
  intros H. unfold run. rewrite H.
  destruct e; try reflexivity.
  split; [reflexivity|]. split.
  - unfold launch_message. apply contains_append.
  - unfold launch_message.
    do 3 apply endswith_append. apply endswith_refl.
Qed.

End Runner.

(** The claim of C2 fails for a missing executable: [FileNotFoundError] is
    not a [PermissionError], so it leaves [run] as it is and no
    [RuntimeError] is raised in its place. *)
Lemma run_missing_executable_escapes :
  let popen : Popen :=
    fun _ _ => LaunchFails
      (FileNotFoundError "[Errno 2] No such file or directory: 'UnrealAndroidFileTool'") in
  run popen ["UnrealAndroidFileTool"; "devices"] None
  = Raise (FileNotFoundError "[Errno 2] No such file or directory: 'UnrealAndroidFileTool'")
  /\ ~ (exists msg,
          run popen ["UnrealAndroidFileTool"; "devices"] None
          = Raise (RuntimeError msg)).
Proof.
  split; [reflexivity|]. intros [msg H]. discriminate H.
Qed.

Lemma run_launch_failure_witness :
  run (fun _ _ => LaunchFails (PermissionError "[Errno 13] Permission denied: '/opt/UE/Android'"))
      ["/opt/UE/Android"; "devices"] None
  = Raise (RuntimeError
             (launch_message "/opt/UE/Android"
                "[Errno 13] Permission denied: '/opt/UE/Android'")).
Proof.
  exact (proj1 (run_launch_failure
                  (fun _ _ => LaunchFails (PermissionError "[Errno 13] Permission denied: '/opt/UE/Android'"))
                  "/opt/UE/Android" ["devices"] None
                  (PermissionError "[Errno 13] Permission denied: '/opt/UE/Android'")
                  eq_refl)).
Defined.

(** ** Argument vectors *)

Ltac by_fields :=
  unfold _base_args, packages_args, options_of, absent_if_empty;
  repeat match goal with
         | H : truthy ?o = _ |- _ => rewrite H in *; clear H
         | |- context [truthy ?o] => destruct (truthy o) eqn:?
         end;
  simpl.

Ltac no_such_flag :=
  let v := fresh "v" in
  let H := fresh "H" in
  intros v H; simpl in H;
  repeat match goal with
         | H : _ \/ _ |- _ => destruct H as [H|H]
         | H : (_, _) = (_, _) |- _ => discriminate H
         | H : False |- _ => exact H
         end.

(** The vector is the executable followed by its options, flag and value
    in turn: reading it as pairs loses nothing. *)
Lemma base_args_options (self : UAFT)
  (serial ip port package token : option string) :
  _base_args self serial ip port package token
  = str_of_path (uaft_path self)
    :: flat_map (fun fv => [fst fv; snd fv])
         (options_of (_base_args self serial ip port package token)).
Proof. by_fields; reflexivity. Qed.

(** C1: with a non-empty [serial] the options of the vector hold the serial
    flag with its value and no IP flag, and the vector is the one built
    without [ip]; with an empty or absent [serial] and a non-empty [ip]
    they hold the IP flag with its value and no serial flag. *)
Theorem base_args_addressing (self : UAFT)
  (serial ip port package token : option string) :
  let opts := options_of (_base_args self serial ip port package token) in
  (truthy serial = true ->
     In ("-s", the serial) opts
     /\ (forall v, ~ In ("-ip", v) opts)
     /\ _base_args self serial ip port package token
        = _base_args self serial None port package token)
  /\ (truthy serial = false -> truthy ip = true ->
     In ("-ip", the ip) opts
     /\ (forall v, ~ In ("-s", v) opts)).
Proof.
  split.
  - intros Hs. repeat split.
    + by_fields; left; reflexivity.
    + by_fields; no_such_flag.
    + by_fields; reflexivity.
  - intros Hs Hi. split.
    + by_fields; left; reflexivity.
    + by_fields; no_such_flag.
Qed.

Lemma base_args_addressing_witness :
  let u := mkUAFT (Path_of "/opt/UE/UnrealAndroidFileTool") in
  (In ("-s", "R58M12ABCDE")
      (options_of (_base_args u (Some "R58M12ABCDE") (Some "127.0.0.1")
                     (Some "57099") (Some "com.company.game") None))
   /\ forall v, ~ In ("-ip", v)
      (options_of (_base_args u (Some "R58M12ABCDE") (Some "127.0.0.1")
                     (Some "57099") (Some "com.company.game") None)))
  /\ In ("-ip", "127.0.0.1")
      (options_of (_base_args u (Some "") (Some "127.0.0.1")
                     (Some "57099") (Some "com.company.game") None)).
Proof.
  intros u. split.
  - pose proof (proj1 (base_args_addressing u (Some "R58M12ABCDE")
                         (Some "127.0.0.1") (Some "57099")
                         (Some "com.company.game") None) eq_refl) as H.
    split; [exact (proj1 H) | exact (proj1 (proj2 H))].
  - exact (proj1 (proj2 (base_args_addressing u (Some "") (Some "127.0.0.1")
                           (Some "57099") (Some "com.company.game") None)
                    eq_refl eq_refl)).
Defined.

(** C9: a field given as the empty string builds the same vector as an
    absent one, in the connection arguments and in the arguments of
    [packages]; with every field empty but a non-empty [ip] the vector is
    the executable and the IP flag alone. *)
Theorem empty_field_is_absent (self : UAFT)
  (serial ip port package token : option string) :
  _base_args self serial ip port package token
  = _base_args self (absent_if_empty serial) (absent_if_empty ip)
      (absent_if_empty port) (absent_if_empty package) (absent_if_empty token)
  /\ packages_args self serial = packages_args self (absent_if_empty serial)
  /\ _base_args self (Some "") ip (Some "") (Some "") (Some "")
     = _base_args self None ip None None None
  /\ (truthy ip = true ->
      _base_args self (Some "") ip (Some "") (Some "") (Some "")
      = [str_of_path (uaft_path self); "-ip"; the ip]).
Proof.
  repeat split.
  - unfold absent_if_empty.
    destruct (truthy serial) eqn:Hs, (truthy ip) eqn:Hi, (truthy port) eqn:Hp,
      (truthy package) eqn:Hk, (truthy token) eqn:Ht;
      unfold _base_args; rewrite ?Hs, ?Hi, ?Hp, ?Hk, ?Ht; reflexivity.
  - unfold absent_if_empty, packages_args.
    destruct (truthy serial) eqn:Hs; rewrite ?Hs; reflexivity.
  - intros Hi. unfold _base_args. rewrite Hi. reflexivity.
Qed.

Lemma empty_field_is_absent_witness :
  _base_args (mkUAFT (Path_of "/opt/UE/UnrealAndroidFileTool"))
    (Some "") (Some "10.0.0.7") (Some "") (Some "") (Some "")
  = ["/opt/UE/UnrealAndroidFileTool"; "-ip"; "10.0.0.7"].
Proof.
  exact (proj2 (proj2 (proj2
           (empty_field_is_absent
              (mkUAFT (Path_of "/opt/UE/UnrealAndroidFileTool"))
              (Some "") (Some "10.0.0.7") (Some "") (Some "") (Some ""))))
           eq_refl).
Defined.

(** ** Listing traces *)

Lemma traces_loop_filter (lines files : list string) :
  traces_loop lines files
  = files ++ List.filter
               (fun ln => PyStr.endswith ln ".trace" || PyStr.endswith ln ".utrace")
               (map PyStr.strip lines).
Proof.
  revert files. induction lines as [|ln rest IH]; intros files; simpl.
  - symmetry. apply app_nil_r.
  - destruct (PyStr.endswith (PyStr.strip ln) ".trace"
              || PyStr.endswith (PyStr.strip ln) ".utrace").
    + rewrite IH, <- app_assoc. reflexivity.
    + apply IH.
Qed.




(** The claim of C6 fails on a line with surrounding whitespace: the line
    below does not end in a recognized suffix, and it is kept. *)
Lemma list_traces_keeps_padded_line :
  let out := "Run2.utrace " in
  PyStr.splitlines out = ["Run2.utrace "]
  /\ PyStr.endswith "Run2.utrace " ".trace" = false
  /\ PyStr.endswith "Run2.utrace " ".utrace" = false
  /\ list_traces (fun _ _ => Exited 0 out "")
       (mkUAFT (Path_of "/opt/UE/UnrealAndroidFileTool"))
       (Some "R58M12ABCDE") None None "com.company.game" None
     = Ok ["Run2.utrace"]
  /\ list_traces (fun _ _ => Exited 0 out "")
       (mkUAFT (Path_of "/opt/UE/UnrealAndroidFileTool"))
       (Some "R58M12ABCDE") None None "com.company.game" None
     <> Ok (List.filter
              (fun ln => PyStr.endswith ln ".trace" || PyStr.endswith ln ".utrace")
              (PyStr.splitlines out)).
Proof.
  repeat split; try reflexivity. discriminate.
Qed.

(** C6, as the code has it: on a zero exit code the result is the lines,
    trimmed of surrounding whitespace, whose trimmed text ends in ".trace"
    or ".utrace", in the order of the output; an output consisting of the
    lines "Profiling_001.trace", "notes.txt", "Run2.utrace" gives exactly
    the first and the third. *)
Theorem list_traces_parsing (popen : Popen) (self : UAFT)
  (serial ip port : option string) (package : string) (token : option string)
  (out err : string) :
  popen (list_traces_args self serial ip port package token) None
  = Exited 0 out err ->
  list_traces popen self serial ip port package token
  = Ok (List.filter
          (fun ln => PyStr.endswith ln ".trace" || PyStr.endswith ln ".utrace")
          (map PyStr.strip (PyStr.splitlines out)))
  /\ (PyStr.splitlines out = ["Profiling_001.trace"; "notes.txt"; "Run2.utrace"] ->
      list_traces popen self serial ip port package token
      = Ok ["Profiling_001.trace"; "Run2.utrace"]).
Proof.
  intros Hrun.
  assert (list_traces popen self serial ip port package token
          = Ok (traces_loop (PyStr.splitlines out) [])) as E.
  { unfold list_traces.
    rewrite (run_exited popen _ None 0%Z out err Hrun). reflexivity. }
  rewrite E, traces_loop_filter. split.
  - reflexivity.
  - intros ->. reflexivity.
Qed.

Lemma list_traces_parsing_witness :
  list_traces
    (fun _ _ => Exited 0 ("Profiling_001.trace" +:+ LF +:+ "notes.txt" +:+ LF
                          +:+ "Run2.utrace" +:+ LF) "")
    (mkUAFT (Path_of "/opt/UE/UnrealAndroidFileTool"))
    (Some "R58M12ABCDE") None None "com.company.game" None
  = Ok ["Profiling_001.trace"; "Run2.utrace"].
Proof.
  apply (proj2 (list_traces_parsing
                  (fun _ _ => Exited 0 ("Profiling_001.trace" +:+ LF +:+ "notes.txt"
                                        +:+ LF +:+ "Run2.utrace" +:+ LF) "")
                  (mkUAFT (Path_of "/opt/UE/UnrealAndroidFileTool"))
                  (Some "R58M12ABCDE") None None "com.company.game" None
                  ("Profiling_001.trace" +:+ LF +:+ "notes.txt" +:+ LF
                   +:+ "Run2.utrace" +:+ LF) "" eq_refl)).
  reflexivity.
Defined.

(** ** Characters in lines *)

Lemma prefix_char (x c : ascii) (r : string) :
  String.prefix (String x EmptyString) (String c r) = Ascii.eqb x c.
Proof.
  simpl. destruct (ascii_dec x c) as [->|N].
  - rewrite Ascii.eqb_refl. destruct r; reflexivity.
  - symmetry. apply Ascii.eqb_neq. exact N.
Qed.

Lemma contains_char_cons (x c : ascii) (r : string) :
  PyStr.contains (String x EmptyString) (String c r)
  = Ascii.eqb x c || PyStr.contains (String x EmptyString) r.
Proof. rewrite contains_unfold, prefix_char. reflexivity. Qed.

(** A character that is no whitespace survives trimming. *)
Lemma contains_lstrip (x : ascii) (s : string) :
  PyStr.isspace x = false ->
  PyStr.contains (String x EmptyString) (PyStr.lstrip s)
  = PyStr.contains (String x EmptyString) s.
Proof.
  intros Hx. induction s as [|c r IH]; [reflexivity|].
  simpl PyStr.lstrip. destruct (PyStr.isspace c) eqn:Hc; [|reflexivity].
  rewrite IH, contains_char_cons.
  destruct (Ascii.eqb_spec x c) as [->|_]; [congruence | reflexivity].
Qed.

Lemma rstrip_empty_contains (x : ascii) (s : string) :
  PyStr.isspace x = false ->
  PyStr.is_empty (PyStr.rstrip s) = true ->
  PyStr.contains (String x EmptyString) s = false.
Proof.
  intros Hx. induction s as [|c r IH]; [reflexivity|].
  simpl PyStr.rstrip.
  destruct (PyStr.isspace c) eqn:Hc; simpl andb; [|discriminate].
  destruct (PyStr.is_empty (PyStr.rstrip r)) eqn:Hr; [|discriminate].
  intros _. rewrite contains_char_cons, IH by reflexivity.
  destruct (Ascii.eqb_spec x c) as [->|_]; [congruence | reflexivity].
Qed.

Lemma contains_nonblank (x : ascii) (s : string) :
  PyStr.isspace x = false ->
  PyStr.contains (String x EmptyString) s = true ->
  PyStr.nonempty (PyStr.strip s) = true.
Proof.
  intros Hx Hs. unfold PyStr.nonempty, PyStr.strip.
  destruct (PyStr.is_empty (PyStr.rstrip (PyStr.lstrip s))) eqn:E; [|reflexivity].
  apply (rstrip_empty_contains x) in E; [|exact Hx].
  rewrite contains_lstrip in E by exact Hx. congruence.
Qed.

Lemma nonblank_nonempty (s : string) :
  PyStr.nonempty (PyStr.strip s) = true -> PyStr.nonempty s = true.
Proof. destruct s; [discriminate | reflexivity]. Qed.

(** ** Listing packages *)

Lemma package_line_kept_code (ln : string) :
  PyStr.nonempty (PyStr.strip ln) && PyStr.contains "." ln
  = package_line_kept ln.
Proof.
  unfold package_line_kept.
  destruct (PyStr.contains "." ln) eqn:Hd.
  - rewrite (contains_nonblank "." ln) by (reflexivity || exact Hd).
    rewrite (nonblank_nonempty ln); [reflexivity|].
    apply (contains_nonblank "."); [reflexivity | exact Hd].
  - rewrite !andb_false_r. reflexivity.
Qed.

Lemma filter_ext_eq {A : Type} (f g : A -> bool) (l : list A) :
  (forall x, f x = g x) -> List.filter f l = List.filter g l.
Proof.
  intros H. induction l as [|x l IH]; simpl; [reflexivity|].
  rewrite H, IH. reflexivity.
Qed.

(** C5: on a zero exit code [packages] reports, trimmed, exactly the
    output lines that are non-empty and contain a "."; an output
    consisting of the lines "com.company.game", "not-a-package" and the
    empty line gives exactly ["com.company.game"]. *)
Theorem packages_parsing (popen : Popen) (self : UAFT)
  (serial : option string) (out err : string) :
  popen (packages_args self serial) None = Exited 0 out err ->
  packages popen self serial
  = Ok (map PyStr.strip (List.filter package_line_kept (PyStr.splitlines out)))
  /\ (PyStr.splitlines out = ["com.company.game"; "not-a-package"; ""] ->
      packages popen self serial = Ok ["com.company.game"]).
Proof.
  intros Hrun.
  assert (packages popen self serial
          = Ok (map PyStr.strip
                  (List.filter package_line_kept (PyStr.splitlines out)))) as E.
  { unfold packages.
    rewrite (run_exited popen _ None 0%Z out err Hrun).
    unfold packages_lines. simpl negb. cbv iota.
    rewrite (filter_ext_eq _ package_line_kept) by apply package_line_kept_code.
    reflexivity. }
  split; [exact E|]. intros Hl. rewrite E, Hl. reflexivity.
Qed.

Lemma packages_parsing_witness :
  packages
    (fun _ _ => Exited 0 ("com.company.game" +:+ LF +:+ "not-a-package" +:+ LF
                          +:+ LF) "")
    (mkUAFT (Path_of "/opt/UE/UnrealAndroidFileTool")) (Some "R58M12ABCDE")
  = Ok ["com.company.game"].
Proof.
  apply (proj2 (packages_parsing
                  (fun _ _ => Exited 0 ("com.company.game" +:+ LF
                                        +:+ "not-a-package" +:+ LF +:+ LF) "")
                  (mkUAFT (Path_of "/opt/UE/UnrealAndroidFileTool"))
                  (Some "R58M12ABCDE")
                  ("com.company.game" +:+ LF +:+ "not-a-package" +:+ LF +:+ LF)
                  "" eq_refl)).
  reflexivity.
Defined.

(** ** Listing devices *)

Lemma filter_map_filter {A B : Type} (p : A -> bool) (f : A -> B)
  (q : B -> bool) (l : list A) :
  List.filter q (map f (List.filter p l))
  = flat_map (fun x => if p x && q (f x) then [f x] else []) l.
Proof.
  induction l as [|x l IH]; simpl; [reflexivity|].
  destruct (p x); simpl.
  - destruct (q (f x)); simpl; rewrite IH; reflexivity.
  - exact IH.
Qed.

(** Dropping leading "@" characters removes no space. *)
Lemma contains_space_lstrip_at (s : string) :
  PyStr.contains " " (PyStr.lstrip_char "@" s) = PyStr.contains " " s.
Proof.
  induction s as [|c r IH]; [reflexivity|].
  simpl PyStr.lstrip_char. destruct (Ascii.eqb_spec c "@") as [->|_].
  - rewrite IH, contains_char_cons. reflexivity.
  - reflexivity.
Qed.

Lemma device_line_dropped_code (ln : string) :
  PyStr.nonempty (PyStr.strip ln)
  && (negb (PyStr.contains " " (device_of_line ln))
      && negb (String.eqb (PyStr.lower (device_of_line ln)) "devices"))
  = negb (device_line_dropped ln).
Proof.
  unfold device_line_dropped, device_of_line, PyStr.nonempty.
  rewrite contains_space_lstrip_at.
  destruct (PyStr.is_empty (PyStr.strip ln)),
    (PyStr.contains " " (PyStr.strip ln)),
    (String.eqb (PyStr.lower (PyStr.lstrip_char "@" (PyStr.strip ln))) "devices");
    reflexivity.
Qed.

Lemma devices_lines_flat_map (out : string) :
  devices_lines out
  = flat_map (fun ln => if device_line_dropped ln then [] else [device_of_line ln])
      (PyStr.splitlines out).
Proof.
  unfold devices_lines.
  rewrite (filter_map_filter
             (fun ln => PyStr.nonempty (PyStr.strip ln))
             (fun ln => PyStr.lstrip_char "@" (PyStr.strip ln))).
  apply flat_map_ext. intros ln.
  change (PyStr.lstrip_char "@" (PyStr.strip ln)) with (device_of_line ln).
  rewrite device_line_dropped_code.
  destruct (device_line_dropped ln); reflexivity.
Qed.

Lemma devices_exited (popen : Popen) (self : UAFT) (out err : string) :
  popen [str_of_path (uaft_path self); "devices"] None = Exited 0 out err ->
  devices popen self = Ok (devices_lines out).
Proof.
  intros Hrun. unfold devices.
  rewrite (run_exited popen _ None 0%Z out err Hrun). reflexivity.
Qed.

(** The claim of C4 fails on whitespace other than the space: the line
    below contains a tab, and [devices] reports it. *)
Lemma devices_keeps_line_with_tab :
  let out := "ABC" +:+ TAB +:+ "DEF" in
  PyStr.splitlines out = [out]
  /\ PyStr.isspace "009" = true
  /\ PyStr.contains TAB out = true
  /\ devices (fun _ _ => Exited 0 out "")
       (mkUAFT (Path_of "/opt/UE/UnrealAndroidFileTool"))
     = Ok [out].
Proof. repeat split; reflexivity. Qed.

(** C4, as the code has it: on a zero exit code [devices] drops every
    output line that, trimmed, is empty or contains a space character, or
    that without its leading "@" characters is "devices" in any letter
    case; every other line is reported, trimmed and without its leading
    "@" characters, in the order of the output.  An output consisting of
    the lines "List of devices attached", "ABC123", "DEF456 offline" gives
    exactly ["ABC123"]. *)
Theorem devices_parsing (popen : Popen) (self : UAFT) (out err : string) :
  popen [str_of_path (uaft_path self); "devices"] None = Exited 0 out err ->
  devices popen self
  = Ok (flat_map
          (fun ln => if device_line_dropped ln then [] else [device_of_line ln])
          (PyStr.splitlines out))
  /\ (PyStr.splitlines out
      = ["List of devices attached"; "ABC123"; "DEF456 offline"] ->
      devices popen self = Ok ["ABC123"]).
Proof.
  intros Hrun.
  rewrite (devices_exited popen self out err Hrun), devices_lines_flat_map.
  split; [reflexivity|]. intros ->. reflexivity.
Qed.

Lemma devices_parsing_witness :
  devices
    (fun _ _ => Exited 0 ("List of devices attached" +:+ LF +:+ "ABC123" +:+ LF
                          +:+ "DEF456 offline" +:+ LF) "")
    (mkUAFT (Path_of "/opt/UE/UnrealAndroidFileTool"))
  = Ok ["ABC123"].
Proof.
  apply (proj2 (devices_parsing
                  (fun _ _ => Exited 0 ("List of devices attached" +:+ LF
                                        +:+ "ABC123" +:+ LF
                                        +:+ "DEF456 offline" +:+ LF) "")
                  (mkUAFT (Path_of "/opt/UE/UnrealAndroidFileTool"))
                  ("List of devices attached" +:+ LF +:+ "ABC123" +:+ LF
                   +:+ "DEF456 offline" +:+ LF)
                  "" eq_refl)).
  reflexivity.
Defined.

(** Every string is some "@" characters followed by what [lstrip("@")]
    leaves, and that remainder does not start with "@". *)
Lemma lstrip_at_split (s : string) :
  exists n, s = at_signs n +:+ PyStr.lstrip_char "@" s
            /\ PyStr.startswith (PyStr.lstrip_char "@" s) "@" = false.
Proof.
  induction s as [|c r [n [E H]]].
  - exists 0. split; reflexivity.
  - simpl PyStr.lstrip_char. destruct (Ascii.eqb_spec c "@") as [->|N].
    + exists (S n). split; [|exact H].
      change (String "@" r
              = String "@" (at_signs n +:+ PyStr.lstrip_char "@" r)).
      f_equal. exact E.
    + exists 0. split; [reflexivity|].
      unfold PyStr.startswith. rewrite prefix_char.
      apply Ascii.eqb_neq. congruence.
Qed.

Lemma lstrip_at_unique (n : nat) (x : string) :
  PyStr.startswith x "@" = false ->
  PyStr.lstrip_char "@" (at_signs n +:+ x) = x.
Proof.
  intros H. induction n as [|n IH]; simpl.
  - destruct x as [|c r]; [reflexivity|].
    unfold PyStr.startswith in H. rewrite prefix_char in H.
    simpl. rewrite Ascii.eqb_sym, H. reflexivity.
  - exact IH.
Qed.

(** C10: on a zero exit code, [x] is reported by [devices] exactly when
    some output line, trimmed, is [x] preceded by any number of "@"
    characters, [x] itself not starting with "@", and the line passes the
    filters, which look at [x]: so the "@" characters are removed after
    trimming and before filtering.  The line "@ABC123" gives "ABC123", and
    the line "@devices" is dropped as the header. *)
Theorem devices_strips_at (popen : Popen) (self : UAFT) (out err : string) :
  popen [str_of_path (uaft_path self); "devices"] None = Exited 0 out err ->
  (exists r, devices popen self = Ok r
     /\ forall x, In x r <->
          exists ln n, In ln (PyStr.splitlines out)
            /\ PyStr.strip ln = at_signs n +:+ x
            /\ PyStr.startswith x "@" = false
            /\ PyStr.nonempty (PyStr.strip ln) = true
            /\ PyStr.contains " " x = false
            /\ String.eqb (PyStr.lower x) "devices" = false)
  /\ (PyStr.splitlines out = ["@ABC123"] -> devices popen self = Ok ["ABC123"])
  /\ (PyStr.splitlines out = ["@devices"] -> devices popen self = Ok []).
Proof.
  intros Hrun. rewrite (devices_exited popen self out err Hrun). split.
  - eexists. split; [reflexivity|]. intros x.
    unfold devices_lines. rewrite filter_In, in_map_iff. split.
    + intros [[ln [Hx Hln]] Hq]. apply filter_In in Hln as [Hin Hne].
      destruct (lstrip_at_split (PyStr.strip ln)) as [n [E Hat]].
      rewrite Hx in E, Hat.
      apply andb_true_iff in Hq as [Hsp Hdev].
      exists ln, n. repeat split; try assumption.
      * apply negb_true_iff. exact Hsp.
      * apply negb_true_iff. exact Hdev.
    + intros [ln [n [Hin [E [Hat [Hne [Hsp Hdev]]]]]]]. split.
      * exists ln. split.
        -- rewrite E. apply lstrip_at_unique. exact Hat.
        -- apply filter_In. split; assumption.
      * rewrite Hsp, Hdev. reflexivity.
  - split; intros Hl; unfold devices_lines; rewrite Hl; reflexivity.
Qed.

Lemma devices_strips_at_witness :
  devices (fun _ _ => Exited 0 ("@ABC123" +:+ LF) "")
    (mkUAFT (Path_of "/opt/UE/UnrealAndroidFileTool"))
  = Ok ["ABC123"].
Proof.
  apply (proj1 (proj2 (devices_strips_at
                         (fun _ _ => Exited 0 ("@ABC123" +:+ LF) "")
                         (mkUAFT (Path_of "/opt/UE/UnrealAndroidFileTool"))
                         ("@ABC123" +:+ LF) "" eq_refl))).
  reflexivity.
Defined.

(** ** Strings as sequences *)

Lemma append_cons (c : ascii) (a s : string) :
  String c a +:+ s = String c (a +:+ s).
Proof. reflexivity. Qed.

Lemma append_nil_l (s : string) : EmptyString +:+ s = s.
Proof. reflexivity. Qed.

Lemma append_nil_r (s : string) : s +:+ EmptyString = s.
Proof.
  induction s as [|c s IH]; [reflexivity|]. rewrite append_cons, IH. reflexivity.
Qed.

Lemma append_assoc (a b c : string) : (a +:+ b) +:+ c = a +:+ (b +:+ c).
Proof.
  induction a as [|x a IH]; [reflexivity|].
  rewrite !append_cons, IH. reflexivity.
Qed.

Lemma append_eq_nil (a b : string) :
  a +:+ b = EmptyString -> a = EmptyString /\ b = EmptyString.
Proof.
  destruct a; [rewrite append_nil_l; auto | rewrite append_cons; discriminate].
Qed.

(** ** The matcher and the language of a pattern *)

Lemma nullable_Matches (r : regex) :
  nullable r = true <-> Matches r EmptyString.
Proof.
  induction r as [| |p|r1 IH1 r2 IH2|r1 IH1 r2 IH2|r IH|r IH]; simpl.
  - split; [discriminate | inversion 1].
  - split; [constructor | reflexivity].
  - split; [discriminate | inversion 1].
  - rewrite andb_true_iff, IH1, IH2. split.
    + intros [H1 H2]. apply (MCat r1 r2 EmptyString EmptyString H1 H2).
    + intros H. inversion H as [| |? ? s1 s2 H1 H2 E1 E2| | | | |]; subst.
      apply append_eq_nil in E2 as [-> ->]. auto.
  - rewrite orb_true_iff, IH1, IH2. split.
    + intros [H|H]; [apply MAltL | apply MAltR]; exact H.
    + intros H. inversion H; subst; auto.
  - split; [constructor | reflexivity].
  - rewrite IH. split.
    + intros H. apply (MPlus r EmptyString EmptyString H (MStarNil r)).
    + intros H. inversion H as [| | | | | | |? s1 s2 H1 H2 E1 E2]; subst.
      apply append_eq_nil in E2 as [-> ->]. exact H1.
Qed.

(** A non-empty word of [Star r] starts with a non-empty word of [r]. *)
Lemma Star_cons (r : regex) (s : string) :
  Matches (Star r) s ->
  forall c t, s = String c t ->
  exists t1 t2, t = t1 +:+ t2
    /\ Matches r (String c t1) /\ Matches (Star r) t2.
Proof.
  intros H. remember (Star r) as r' eqn:Er.
  induction H as [| | | | | |r0 s1 s2 H1 _ H2 IH2|]; try discriminate Er.
  - intros c t E. discriminate E.
  - injection Er as ->. intros c t E.
    destruct s1 as [|c1 s1].
    + rewrite append_nil_l in E. exact (IH2 eq_refl c t E).
    + rewrite append_cons in E. injection E as -> <-.
      exists s1, s2. auto.
Qed.

Lemma deriv_Matches (r : regex) :
  forall c s, Matches (deriv c r) s <-> Matches r (String c s).
Proof.
  induction r as [| |p|r1 IH1 r2 IH2|r1 IH1 r2 IH2|r IH|r IH]; intros c s; simpl.
  - split; inversion 1.
  - split; inversion 1.
  - destruct (p c) eqn:Hp; split; intros H.
    + inversion H; subst. constructor. exact Hp.
    + inversion H; subst. constructor.
    + inversion H.
    + inversion H; subst. congruence.
  - assert (Matches (Cat (deriv c r1) r2) s
            <-> exists s1 s2, s = s1 +:+ s2
                  /\ Matches r1 (String c s1) /\ Matches r2 s2) as Hcat.
    { split.
      - intros H. inversion H as [| |? ? s1 s2 H1 H2| | | | |]; subst.
        exists s1, s2. rewrite <- IH1. auto.
      - intros [s1 [s2 [-> [H1 H2]]]]. constructor; [apply IH1|]; assumption. }
    assert (Matches (Cat r1 r2) (String c s)
            <-> (exists s1 s2, s = s1 +:+ s2
                   /\ Matches r1 (String c s1) /\ Matches r2 s2)
                \/ (Matches r1 EmptyString /\ Matches r2 (String c s))) as Hfull.
    { split.
      - intros H. inversion H as [| |? ? s1 s2 H1 H2 E1 E2| | | | |]; subst.
        destruct s1 as [|c1 s1].
        + rewrite append_nil_l in E2. subst. right. auto.
        + rewrite append_cons in E2. injection E2 as -> <-.
          left. exists s1, s2. auto.
      - intros [[s1 [s2 [-> [H1 H2]]]]|[H1 H2]].
        + rewrite <- append_cons. constructor; assumption.
        + apply (MCat r1 r2 EmptyString (String c s) H1 H2). }
    rewrite Hfull. destruct (nullable r1) eqn:Hn.
    + split.
      * intros H. inversion H; subst.
        -- left. apply Hcat. assumption.
        -- right. split; [apply nullable_Matches; exact Hn | apply IH2; assumption].
      * intros [H|[_ H]].
        -- apply MAltL, Hcat, H.
        -- apply MAltR, IH2, H.
    + rewrite Hcat. split; [auto|]. intros [H|[H _]]; [exact H|].
      apply nullable_Matches in H. congruence.
  - split; intros H; inversion H; subst.
    + apply MAltL, IH1. assumption.
    + apply MAltR, IH2. assumption.
    + apply MAltL, IH1. assumption.
    + apply MAltR, IH2. assumption.
  - split.
    + intros H. inversion H as [| |? ? s1 s2 H1 H2| | | | |]; subst.
      rewrite <- append_cons. apply MStarApp; [apply IH|]; assumption.
    + intros H.
      destruct (Star_cons r _ H c s eq_refl) as [t1 [t2 [-> [H1 H2]]]].
      constructor; [apply IH|]; assumption.
  - split.
    + intros H. inversion H as [| |? ? s1 s2 H1 H2| | | | |]; subst.
      rewrite <- append_cons. apply MPlus; [apply IH|]; assumption.
    + intros H. inversion H as [| | | | | | |? s1 s2 H1 H2 E1 E2]; subst.
      destruct s1 as [|c1 s1].
      * rewrite append_nil_l in E2. subst.
        destruct (Star_cons r _ H2 c s eq_refl) as [t1 [t2 [-> [H3 H4]]]].
        constructor; [apply IH|]; assumption.
      * rewrite append_cons in E2. injection E2 as -> <-.
        constructor; [apply IH|]; assumption.
Qed.

(** [fullmatch] decides the language of the pattern. *)
Lemma fullmatch_Matches (s : string) :
  forall r, fullmatch r s = true <-> Matches r s.
Proof.
  induction s as [|c s IH]; intros r; simpl.
  - apply nullable_Matches.
  - rewrite IH. apply deriv_Matches.
Qed.

Lemma Star_Class (p : ascii -> bool) (s : string) :
  Matches (Star (Class p)) s <-> all_chars p s = true.
Proof.
  split.
  - intros H. remember (Star (Class p)) as r eqn:Er.
    induction H as [| | | | | |r0 s1 s2 H1 _ H2 IH2|]; try discriminate Er.
    + reflexivity.
    + injection Er as ->. inversion H1 as [|? c Hc| | | | | |]; subst.
      rewrite append_cons, append_nil_l. simpl.
      rewrite Hc. exact (IH2 eq_refl).
  - induction s as [|c s IH]; simpl; intros H.
    + constructor.
    + apply andb_true_iff in H as [Hc Hs].
      apply (MStarApp (Class p) (String c EmptyString) s).
      * constructor. exact Hc.
      * apply IH. exact Hs.
Qed.

Lemma Plus_Class (p : ascii -> bool) (s : string) :
  Matches (Plus (Class p)) s
  <-> PyStr.nonempty s && all_chars p s = true.
Proof.
  split.
  - intros H. inversion H as [| | | | | | |? s1 s2 H1 H2]; subst.
    inversion H1 as [|? c Hc| | | | | |]; subst.
    apply Star_Class in H2. rewrite append_cons, append_nil_l. simpl.
    rewrite Hc. exact H2.
  - destruct s as [|c s]; [discriminate|]. simpl. intros H.
    apply andb_true_iff in H as [Hc Hs].
    apply (MPlus (Class p) (String c EmptyString) s).
    + constructor. exact Hc.
    + apply Star_Class. exact Hs.
Qed.

Lemma dot_segment_Matches (s : string) :
  Matches (Cat (Class dot_char) (Plus (Class word_char))) s
  <-> exists x, segment x = true /\ s = String "." x.
Proof.
  split.
  - intros H. inversion H as [| |? ? s1 s2 H1 H2| | | | |]; subst.
    inversion H1 as [|? c Hc| | | | | |]; subst.
    apply Ascii.eqb_eq in Hc as ->. apply Plus_Class in H2.
    exists s2. split; [exact H2 | reflexivity].
  - intros [x [Hx ->]].
    apply (MCat (Class dot_char) _ (String "." EmptyString) x).
    + constructor. reflexivity.
    + apply Plus_Class. exact Hx.
Qed.

Lemma dotted_Matches (s : string) :
  Matches (Star (Cat (Class dot_char) (Plus (Class word_char)))) s
  <-> exists pieces, forallb segment pieces = true /\ s = dotted pieces.
Proof.
  split.
  - intros H.
    remember (Star (Cat (Class dot_char) (Plus (Class word_char)))) as r eqn:Er.
    induction H as [| | | | | |r0 s1 s2 H1 _ H2 IH2|]; try discriminate Er.
    + exists []. split; reflexivity.
    + injection Er as ->. apply dot_segment_Matches in H1 as [x [Hx ->]].
      destruct (IH2 eq_refl) as [pieces [Hp ->]].
      exists (x :: pieces). split.
      * simpl. rewrite Hx. exact Hp.
      * reflexivity.
  - intros [pieces [Hp ->]]. induction pieces as [|x rest IH]; simpl.
    + constructor.
    + simpl in Hp. apply andb_true_iff in Hp as [Hx Hrest].
      rewrite <- append_cons. apply MStarApp.
      * apply dot_segment_Matches. exists x. auto.
      * apply IH. exact Hrest.
Qed.

(** The language of the pattern of [_valid_package]. *)
Lemma package_pattern_Matches (s : string) :
  Matches package_pattern s
  <-> exists x y rest,
        segment x = true /\ forallb segment (y :: rest) = true
        /\ s = x +:+ dotted (y :: rest).
Proof.
  unfold package_pattern. split.
  - intros H. inversion H as [| |? ? s1 s2 H1 H2| | | | |]; subst.
    apply Plus_Class in H1.
    inversion H2 as [| | | | | | |? t1 t2 H3 H4]; subst.
    apply dot_segment_Matches in H3 as [y [Hy ->]].
    apply dotted_Matches in H4 as [rest [Hrest ->]].
    exists s1, y, rest. repeat split.
    + exact H1.
    + simpl. rewrite Hy. exact Hrest.
  - intros [x [y [rest [Hx [Hp ->]]]]].
    simpl in Hp. apply andb_true_iff in Hp as [Hy Hrest].
    constructor.
    + apply Plus_Class. exact Hx.
    + simpl dotted. rewrite <- append_cons. apply MPlus.
      * apply dot_segment_Matches. exists y. auto.
      * apply dotted_Matches. exists rest. auto.
Qed.

(** ** Cutting a name at its dots *)

Lemma split_from_no_dot (x : string) :
  all_chars word_char x = true ->
  forall cur t,
    PyStr.split_from "." cur (x +:+ t) = PyStr.split_from "." (cur +:+ x) t.
Proof.
  induction x as [|c x IH]; intros Hx cur t.
  - rewrite append_nil_l, append_nil_r. reflexivity.
  - simpl in Hx. apply andb_true_iff in Hx as [Hc Hx].
    rewrite append_cons. simpl PyStr.split_from.
    destruct (Ascii.eqb_spec c ".") as [->|_]; [discriminate Hc|].
    rewrite (IH Hx), append_assoc. reflexivity.
Qed.

Lemma split_from_dotted (pieces : list string) :
  forallb segment pieces = true ->
  forall cur, PyStr.split_from "." cur (dotted pieces) = cur :: pieces.
Proof.
  induction pieces as [|x rest IH]; intros Hp cur; [reflexivity|].
  simpl in Hp. apply andb_true_iff in Hp as [Hx Hrest].
  apply andb_true_iff in Hx as [_ Hx].
  simpl. rewrite (split_from_no_dot x Hx), append_nil_l, (IH Hrest).
  reflexivity.
Qed.

Lemma split_from_joined (s : string) :
  forall cur, exists h t,
    PyStr.split_from "." cur s = h :: t /\ cur +:+ s = h +:+ dotted t.
Proof.
  induction s as [|c s IH]; intros cur; simpl PyStr.split_from.
  - exists cur, []. split; reflexivity.
  - destruct (Ascii.eqb_spec c ".") as [->|_].
    + destruct (IH EmptyString) as [h [t [E J]]].
      exists cur, (h :: t). rewrite E. split; [reflexivity|].
      rewrite append_nil_l in J. simpl. rewrite J. reflexivity.
    + destruct (IH (cur +:+ String c EmptyString)) as [h [t [E J]]].
      exists h, t. split; [exact E|].
      rewrite <- J, append_assoc. reflexivity.
Qed.

Lemma valid_package_spec_Matches (pkg : string) :
  valid_package_spec pkg = true <-> Matches package_pattern pkg.
Proof.
  rewrite package_pattern_Matches. unfold valid_package_spec, PyStr.split. split.
  - intros H. apply andb_true_iff in H as [Hlen Hall].
    destruct (split_from_joined pkg EmptyString) as [h [t [E J]]].
    rewrite E in Hlen, Hall. rewrite append_nil_l in J.
    destruct t as [|y rest]; [discriminate Hlen|].
    simpl in Hall. apply andb_true_iff in Hall as [Hh Hrest].
    exists h, y, rest. auto.
  - intros [x [y [rest [Hx [Hp ->]]]]].
    pose proof Hx as Hx'. apply andb_true_iff in Hx' as [_ Hw].
    rewrite (split_from_no_dot x Hw), append_nil_l, (split_from_dotted _ Hp).
    simpl length. simpl forallb. simpl in Hp. rewrite Hx, Hp. reflexivity.
Qed.

(** C7: [_valid_package] accepts exactly the strings that, cut at the
    dots, have at least two pieces, each one or more characters of
    [A-Za-z0-9_]; it accepts "com.company.game" and "a.b" and rejects the
    empty string, "com:company" and "singleword". *)
Theorem valid_package_shape :
  (forall pkg, _valid_package pkg = valid_package_spec pkg)
  /\ _valid_package "com.company.game" = true
  /\ _valid_package "a.b" = true
  /\ _valid_package "" = false
  /\ _valid_package "com:company" = false
  /\ _valid_package "singleword" = false.
Proof.
  split; [|repeat split; reflexivity].
  intros pkg. unfold _valid_package.
  destruct (valid_package_spec pkg) eqn:E.
  - apply fullmatch_Matches, valid_package_spec_Matches. exact E.
  - destruct (fullmatch package_pattern pkg) eqn:F; [|reflexivity].
    apply fullmatch_Matches, valid_package_spec_Matches in F. congruence.
Qed.

(** ** Making directories *)

Lemma key_snoc (fs : FS) (r : string) (ps : list string) (x : string) :
  key fs {| root := r; parts := ps ++ [x] |}
  = key fs {| root := r; parts := ps |} ++ [x].
Proof.
  unfold key; simpl. destruct (PyStr.is_empty r); [apply app_assoc | reflexivity].
Qed.

Lemma key_grows (fs fs' : FS) (p : Path) :
  cwd fs' = cwd fs -> key fs' p = key fs p.
Proof. intros E. unfold key. rewrite E. reflexivity. Qed.

Lemma node_at_snoc (fs : FS) (k : list string) (x : string) :
  node_at fs (k ++ [x]) = nodes fs !! (k ++ [x]).
Proof. destruct k; reflexivity. Qed.

Lemma grows_refl (fs : FS) : grows fs fs.
Proof. split; [reflexivity | intros k; left; reflexivity]. Qed.

Lemma grows_trans (fs1 fs2 fs3 : FS) :
  grows fs1 fs2 -> grows fs2 fs3 -> grows fs1 fs3.
Proof.
  intros [C12 N12] [C23 N23]. split; [congruence|].
  intros k. destruct (N12 k) as [E|[E1 E2]], (N23 k) as [F|[F1 F2]].
  - left. congruence.
  - right. split; congruence.
  - right. split; congruence.
  - congruence.
Qed.

(** Adding a directory at a free key. *)
Lemma grows_insert (fs : FS) (k : list string) (x : string) :
  node_at fs (k ++ [x]) = None ->
  grows fs {| cwd := cwd fs; nodes := <[k ++ [x] := Dir]> (nodes fs) |}.
Proof.
  intros Hfree. split; [reflexivity|]. intros k'.
  destruct (decide (k' = k ++ [x])) as [->|Hne].
  - right. split; [exact Hfree|].
    rewrite node_at_snoc. simpl. apply lookup_insert_eq.
  - left. destruct k' as [|y k']; [reflexivity|].
    simpl. apply lookup_insert_ne. congruence.
Qed.

Lemma tree_ok_insert (fs : FS) (k : list string) (x : string) :
  tree_ok fs -> node_at fs k = Some Dir ->
  tree_ok {| cwd := cwd fs; nodes := <[k ++ [x] := Dir]> (nodes fs) |}.
Proof.
  intros Hok Hk k' x' Hsome. simpl in Hsome.
  assert (forall j, node_at fs j = Some Dir ->
            node_at {| cwd := cwd fs; nodes := <[k ++ [x] := Dir]> (nodes fs) |} j
            = Some Dir) as Hkeep.
  { intros j Hj. destruct j as [|y j]; [reflexivity|]. simpl.
    destruct (decide (k ++ [x] = y :: j)) as [<-|Hne].
    - apply lookup_insert_eq.
    - rewrite lookup_insert_ne by exact Hne. exact Hj. }
  apply Hkeep.
  destruct (decide (k ++ [x] = k' ++ [x'])) as [E|Hne].
  - apply app_inj_tail in E as [-> _]. exact Hk.
  - rewrite lookup_insert_ne in Hsome by exact Hne. apply (Hok k' x'), Hsome.
Qed.






Lemma key_app (fs : FS) (r : string) (a b : list string) :
  key fs {| root := r; parts := a ++ b |}
  = key fs {| root := r; parts := a |} ++ b.
Proof.
  unfold key; simpl. destruct (PyStr.is_empty r); [apply app_assoc | reflexivity].
Qed.

(** In a tree where every entry lies in a directory, every proper ancestor
    of an entry is a directory. *)
Lemma tree_ok_ancestor (fs : FS) :
  tree_ok fs ->
  forall l2 l1, is_Some (node_at fs (l1 ++ l2)) -> l2 <> [] ->
                node_at fs l1 = Some Dir.
Proof.
  intros Hok l2. induction l2 as [|x l IH] using rev_ind; intros l1 Hsome Hne.
  - contradiction.
  - rewrite app_assoc, node_at_snoc in Hsome.
    apply Hok in Hsome. destruct l as [|y l].
    + rewrite app_nil_r in Hsome. exact Hsome.
    + apply IH; [|discriminate]. rewrite Hsome. eexists. reflexivity.
Qed.

Lemma ancestors_are_dirs (fs : FS) (p : Path) :
  tree_ok fs -> is_dir fs p = true ->
  forall n, is_dir fs {| root := root p; parts := firstn n (parts p) |} = true.
Proof.
  intros Hok Hd n.
  assert (p = {| root := root p;
                 parts := firstn n (parts p) ++ skipn n (parts p) |}) as Ep.
  { rewrite firstn_skipn. destruct p; reflexivity. }
  destruct (skipn n (parts p)) as [|y rest] eqn:Es.
  - rewrite app_nil_r in Ep. rewrite <- Ep. exact Hd.
  - unfold is_dir in Hd |- *. rewrite Ep, key_app in Hd.
    rewrite (tree_ok_ancestor fs Hok (y :: rest)); [reflexivity| |discriminate].
    destruct (node_at fs _); [eexists; reflexivity | discriminate Hd].
Qed.

(** ** The name of a path *)

Lemma all_chars_append (p : ascii -> bool) (a b : string) :
  all_chars p (a +:+ b) = all_chars p a && all_chars p b.
Proof.
  induction a as [|c a IH]; [reflexivity|].
  rewrite append_cons. simpl. rewrite IH. apply andb_assoc.
Qed.







(** ** Pulling a trace *)





(** * Further properties *)

(** ** The argument vector *)

Lemma truthy_the (o : option string) :
  truthy o = true -> PyStr.nonempty (the o) = true.
Proof. destruct o; [auto | discriminate]. Qed.

(** X1: After the executable, [_base_args] emits no empty argument and no flag
    twice, and at most four options: a field takes part only when it is
    non-empty, and [serial] and [ip] share one place. *)
Theorem base_args_well_formed (self : UAFT)
  (serial ip port package token : option string) :
  let args := _base_args self serial ip port package token in
  Forall (fun a => PyStr.nonempty a = true) (tl args)
  /\ List.NoDup (map fst (options_of args))
  /\ length args = 1 + 2 * length (options_of args)
  /\ length (options_of args) <= 4.
Proof.
  unfold _base_args, options_of.
  destruct (truthy serial) eqn:Hs, (truthy ip) eqn:Hi, (truthy port) eqn:Hp,
    (truthy package) eqn:Hk, (truthy token) eqn:Ht; simpl;
    (split; [repeat constructor; auto using truthy_the|]);
    (split; [repeat constructor; simpl; intuition discriminate|]);
    split; (reflexivity || lia).
Qed.

Lemma base_args_head (self : UAFT)
  (serial ip port package token : option string) :
  exists rest,
    _base_args self serial ip port package token
    = str_of_path (uaft_path self) :: rest.
Proof. by_fields; eexists; reflexivity. Qed.

(** ** Launch failures through the adapter *)

Lemma run_permission (popen : Popen) (exe : string) (rest : list string)
  (m : string) :
  popen (exe :: rest) None = LaunchFails (PermissionError m) ->
  run popen (exe :: rest) None = Raise (RuntimeError (launch_message exe m)).
Proof. intros H. unfold run. simpl. rewrite H. reflexivity. Qed.

Lemma run_other_failure (popen : Popen) (cmd : list string) (e : exn) :
  popen cmd None = LaunchFails e ->
  (forall m, e <> PermissionError m) ->
  run popen cmd None = Raise e.
Proof.
  intros H Hne. unfold run. simpl. rewrite H.
  destruct e; try reflexivity. exfalso. exact (Hne msg eq_refl).
Qed.

(** X2: When the tool cannot be launched for lack of permission, every
    operation of the adapter that starts it raises the same [RuntimeError],
    whose message names the tool's path; [list_traces] does not turn this
    failure into an empty list. *)
Theorem launch_permission_failure_surfaces (popen : Popen) (self : UAFT)
  (serial ip port : option string) (package : string) (token : option string)
  (local_cmd m : string) :
  (forall cmd, popen cmd None = LaunchFails (PermissionError m)) ->
  let failure : exn :=
    RuntimeError (launch_message (str_of_path (uaft_path self)) m) in
  devices popen self = Raise failure
  /\ packages popen self serial = Raise failure
  /\ push_commandfile popen self serial ip port package token local_cmd
     = Raise failure
  /\ list_traces popen self serial ip port package token = Raise failure
  /\ PyStr.contains (str_of_path (uaft_path self)) (str_of_exn failure) = true.
Proof.
  intros H failure.
  assert (forall rest,
            run popen (str_of_path (uaft_path self) :: rest) None
            = Raise failure) as Hrun.
  { intros rest. apply run_permission, H. }
  repeat split.
  - unfold devices. rewrite Hrun. reflexivity.
  - unfold packages, packages_args.
    destruct (truthy serial); simpl; rewrite Hrun; reflexivity.
  - unfold push_commandfile.
    destruct (base_args_head self serial ip port (Some package) token)
      as [rest ->].
    simpl. rewrite Hrun. reflexivity.
  - unfold list_traces, list_traces_args.
    destruct (base_args_head self serial ip port (Some package) token)
      as [rest ->].
    simpl. rewrite Hrun. reflexivity.
  - apply contains_append.
Qed.

Lemma launch_permission_failure_surfaces_witness :
  list_traces (fun _ _ => LaunchFails (PermissionError "[WinError 5] Access is denied"))
    (mkUAFT (Path_of "/opt/UE/UnrealAndroidFileTool"))
    (Some "R58M12ABCDE") None None "com.company.game" None
  = Raise (RuntimeError
             (launch_message "/opt/UE/UnrealAndroidFileTool"
                "[WinError 5] Access is denied")).
Proof.
  exact (proj1 (proj2 (proj2 (proj2
           (launch_permission_failure_surfaces
              (fun _ _ => LaunchFails (PermissionError "[WinError 5] Access is denied"))
              (mkUAFT (Path_of "/opt/UE/UnrealAndroidFileTool"))
              (Some "R58M12ABCDE") None None "com.company.game" None
              "" "[WinError 5] Access is denied"
              (fun _ => eq_refl)))))).
Defined.

(** X3: Any other failure to launch, a missing executable for one, leaves each
    operation as the exception the launch raised: no operation answers,
    and [list_traces] does not answer with the empty list. *)
Theorem launch_failure_passes_through (popen : Popen) (self : UAFT)
  (serial ip port : option string) (package : string) (token : option string)
  (local_cmd : string) (e : exn) :
  (forall cmd, popen cmd None = LaunchFails e) ->
  (forall m, e <> PermissionError m) ->
  devices popen self = Raise e
  /\ packages popen self serial = Raise e
  /\ push_commandfile popen self serial ip port package token local_cmd
     = Raise e
  /\ list_traces popen self serial ip port package token = Raise e.
Proof.
  intros H Hne.
  assert (forall cmd, run popen cmd None = Raise e) as Hrun.
  { intros cmd. apply run_other_failure; [apply H | exact Hne]. }
  repeat split.
  - unfold devices. rewrite Hrun. reflexivity.
  - unfold packages. rewrite Hrun. reflexivity.
  - unfold push_commandfile. rewrite Hrun. reflexivity.
  - unfold list_traces. rewrite Hrun. reflexivity.
Qed.

Lemma launch_failure_passes_through_witness :
  list_traces
    (fun _ _ => LaunchFails (FileNotFoundError "[Errno 2] No such file or directory: 'uaft'"))
    (mkUAFT (Path_of "uaft"))
    (Some "R58M12ABCDE") None None "com.company.game" None
  = Raise (FileNotFoundError "[Errno 2] No such file or directory: 'uaft'").
Proof.
  apply (launch_failure_passes_through
           (fun _ _ => LaunchFails (FileNotFoundError "[Errno 2] No such file or directory: 'uaft'"))
           (mkUAFT (Path_of "uaft"))
           (Some "R58M12ABCDE") None None "com.company.game" None ""
           (FileNotFoundError "[Errno 2] No such file or directory: 'uaft'")).
  - reflexivity.
  - discriminate.
Defined.

(** ** Failures reported by the tool *)

(** X4: On a non-zero exit code, with output that has been read and
    decoded, [devices], [packages] and [push_commandfile] raise a
    [RuntimeError] and give no result; its message is the tool's standard
    error, and its standard output only when the standard error is
    empty. *)
Theorem tool_failure_message (popen : Popen) (self : UAFT)
  (serial ip port : option string) (package : string) (token : option string)
  (local_cmd : string) (code : Z) (out err : string) :
  (forall cmd, popen cmd None = Exited code out err) ->
  code <> 0%Z ->
  let failure : exn := RuntimeError (if PyStr.is_empty err then out else err) in
  devices popen self = Raise failure
  /\ packages popen self serial = Raise failure
  /\ push_commandfile popen self serial ip port package token local_cmd
     = Raise failure.
Proof.
  intros H Hcode failure.
  assert (forall cmd, run popen cmd None = Ok (code, out, err)) as Hrun.
  { intros cmd. apply run_exited. apply H. }
  assert (negb (Z.eqb code 0) = true) as Hnz.
  { destruct (Z.eqb_spec code 0); [contradiction | reflexivity]. }
  assert (RuntimeError (py_or err out) = failure) as Hmsg.
  { unfold failure, py_or, PyStr.nonempty. destruct (PyStr.is_empty err); reflexivity. }
  repeat split.
  - unfold devices. rewrite Hrun, Hnz, Hmsg. reflexivity.
  - unfold packages. rewrite Hrun, Hnz, Hmsg. reflexivity.
  - unfold push_commandfile. rewrite Hrun, Hnz, Hmsg. reflexivity.
Qed.

Lemma tool_failure_message_witness :
  devices (fun _ _ => Exited 1 "no devices" "")
    (mkUAFT (Path_of "/opt/UE/UnrealAndroidFileTool"))
  = Raise (RuntimeError "no devices").
Proof.
  apply (tool_failure_message (fun _ _ => Exited 1 "no devices" "")
           (mkUAFT (Path_of "/opt/UE/UnrealAndroidFileTool"))
           None None None "" None "" 1%Z "no devices" "").
  - reflexivity.
  - lia.
Defined.

(** X24: When the output of the tool cannot be decoded, whatever its exit
    code, every operation of the adapter raises the exception of
    [proc.communicate()]: no result is given on exit code zero, no
    [RuntimeError] with the tool's message on another code, and
    [list_traces] does not answer with the empty list. *)
Theorem undecodable_output_surfaces (popen : Popen) (self : UAFT)
  (serial ip port : option string) (package : string) (token : option string)
  (local_cmd : string) (code : Z) (e : exn) :
  (forall cmd, popen cmd None = CommunicateFails code e) ->
  devices popen self = Raise e
  /\ packages popen self serial = Raise e
  /\ push_commandfile popen self serial ip port package token local_cmd
     = Raise e
  /\ list_traces popen self serial ip port package token = Raise e.
Proof.
  intros H.
  assert (forall cmd, run popen cmd None = Raise e) as Hrun.
  { intros cmd. unfold run. simpl. rewrite H. reflexivity. }
  repeat split.
  - unfold devices. rewrite Hrun. reflexivity.
  - unfold packages. rewrite Hrun. reflexivity.
  - unfold push_commandfile. rewrite Hrun. reflexivity.
  - unfold list_traces. rewrite Hrun. reflexivity.
Qed.

Lemma undecodable_output_surfaces_witness :
  devices
    (fun _ _ =>
       CommunicateFails 0
         (UnicodeDecodeError "'utf-8' codec can't decode byte 0xe9 in position 3: invalid continuation byte"))
    (mkUAFT (Path_of "/opt/UE/UnrealAndroidFileTool"))
  = Raise (UnicodeDecodeError "'utf-8' codec can't decode byte 0xe9 in position 3: invalid continuation byte").
Proof.
  apply (undecodable_output_surfaces
           (fun _ _ =>
              CommunicateFails 0
                (UnicodeDecodeError "'utf-8' codec can't decode byte 0xe9 in position 3: invalid continuation byte"))
           (mkUAFT (Path_of "/opt/UE/UnrealAndroidFileTool"))
           None None None "" None "" 0%Z).
  reflexivity.
Defined.

(** ** Trimming *)

Lemma rstrip_cons (c : ascii) (r : string) :
  PyStr.rstrip (String c r)
  = if PyStr.isspace c && PyStr.is_empty (PyStr.rstrip r) then EmptyString
    else String c (PyStr.rstrip r).
Proof. reflexivity. Qed.

Lemma rstrip_idem (s : string) : PyStr.rstrip (PyStr.rstrip s) = PyStr.rstrip s.
Proof.
  induction s as [|c r IH]; [reflexivity|].
  rewrite rstrip_cons.
  destruct (PyStr.isspace c && PyStr.is_empty (PyStr.rstrip r)) eqn:E;
    [reflexivity|].
  rewrite rstrip_cons, IH, E. reflexivity.
Qed.

(** What [lstrip] leaves is empty or starts with a character that is no
    whitespace. *)
Lemma lstrip_head (s : string) :
  match PyStr.lstrip s with
  | EmptyString => True
  | String c _ => PyStr.isspace c = false
  end.
Proof.
  induction s as [|c r IH]; simpl; [exact I|].
  destruct (PyStr.isspace c) eqn:E; [exact IH | exact E].
Qed.

Lemma lstrip_fixed (s : string) :
  match s with
  | EmptyString => True
  | String c _ => PyStr.isspace c = false
  end ->
  PyStr.lstrip s = s.
Proof. destruct s as [|c r]; simpl; [reflexivity|]. intros ->. reflexivity. Qed.

Lemma rstrip_head (s : string) :
  match s with
  | EmptyString => True
  | String c _ => PyStr.isspace c = false
  end ->
  match PyStr.rstrip s with
  | EmptyString => True
  | String c _ => PyStr.isspace c = false
  end.
Proof.
  destruct s as [|c r]; [auto|]. intros H. rewrite rstrip_cons, H. exact H.
Qed.

(** Trimming twice is trimming once. *)
Lemma strip_idem (s : string) : PyStr.strip (PyStr.strip s) = PyStr.strip s.
Proof.
  unfold PyStr.strip.
  rewrite (lstrip_fixed (PyStr.rstrip (PyStr.lstrip s))).
  - apply rstrip_idem.
  - apply rstrip_head, lstrip_head.
Qed.

Lemma rstrip_strip (s : string) : PyStr.rstrip (PyStr.strip s) = PyStr.strip s.
Proof. apply rstrip_idem. Qed.

Lemma all_chars_lstrip (p : ascii -> bool) (s : string) :
  all_chars p s = true -> all_chars p (PyStr.lstrip s) = true.
Proof.
  induction s as [|c r IH]; [auto|]. intros H. simpl.
  destruct (PyStr.isspace c); [|exact H].
  simpl in H. apply andb_true_iff in H as [_ H]. auto.
Qed.

Lemma all_chars_rstrip (p : ascii -> bool) (s : string) :
  all_chars p s = true -> all_chars p (PyStr.rstrip s) = true.
Proof.
  induction s as [|c r IH]; [auto|]. intros H. rewrite rstrip_cons.
  simpl in H. apply andb_true_iff in H as [Hc H].
  destruct (PyStr.isspace c && PyStr.is_empty (PyStr.rstrip r)); [reflexivity|].
  simpl. rewrite Hc. auto.
Qed.

Lemma all_chars_strip (p : ascii -> bool) (s : string) :
  all_chars p s = true -> all_chars p (PyStr.strip s) = true.
Proof. intros H. apply all_chars_rstrip, all_chars_lstrip, H. Qed.

Lemma all_chars_lstrip_char (p : ascii -> bool) (x : ascii) (s : string) :
  all_chars p s = true -> all_chars p (PyStr.lstrip_char x s) = true.
Proof.
  induction s as [|c r IH]; [auto|]. intros H. simpl.
  destruct (Ascii.eqb c x); [|exact H].
  simpl in H. apply andb_true_iff in H as [_ H]. auto.
Qed.

(** A text without whitespace is its own trimmed text. *)
Lemma strip_no_space (s : string) : no_space s = true -> PyStr.strip s = s.
Proof.
  intros H. unfold PyStr.strip.
  assert (PyStr.lstrip s = s) as ->.
  { destruct s as [|c r]; [reflexivity|]. simpl in H |- *.
    apply andb_true_iff in H as [Hc _]. apply negb_true_iff in Hc.
    rewrite Hc. reflexivity. }
  induction s as [|c r IH]; [reflexivity|].
  simpl in H. apply andb_true_iff in H as [Hc H]. apply negb_true_iff in Hc.
  rewrite rstrip_cons, Hc, (IH H). reflexivity.
Qed.

Lemma contains_rstrip (x : ascii) (s : string) :
  PyStr.isspace x = false ->
  PyStr.contains (String x EmptyString) (PyStr.rstrip s)
  = PyStr.contains (String x EmptyString) s.
Proof.
  intros Hx. induction s as [|c r IH]; [reflexivity|].
  rewrite rstrip_cons.
  destruct (PyStr.isspace c) eqn:Hc; simpl andb.
  - destruct (PyStr.is_empty (PyStr.rstrip r)) eqn:Hr.
    + rewrite (rstrip_empty_contains x (String c r) Hx); [reflexivity|].
      rewrite rstrip_cons, Hc, Hr. reflexivity.
    + rewrite !contains_char_cons, IH. reflexivity.
  - rewrite !contains_char_cons, IH. reflexivity.
Qed.

Lemma contains_strip (x : ascii) (s : string) :
  PyStr.isspace x = false ->
  PyStr.contains (String x EmptyString) (PyStr.strip s)
  = PyStr.contains (String x EmptyString) s.
Proof.
  intros Hx. unfold PyStr.strip.
  rewrite contains_rstrip, contains_lstrip by exact Hx. reflexivity.
Qed.

(** Dropping leading characters keeps the end of a trimmed text trimmed. *)
Lemma rstrip_lstrip_char (x : ascii) (s : string) :
  PyStr.rstrip s = s -> PyStr.rstrip (PyStr.lstrip_char x s) = PyStr.lstrip_char x s.
Proof.
  induction s as [|c r IH]; [auto|]. intros H. simpl.
  destruct (Ascii.eqb c x); [|exact H].
  apply IH. rewrite rstrip_cons in H.
  destruct (PyStr.isspace c && PyStr.is_empty (PyStr.rstrip r));
    [discriminate H | injection H; auto].
Qed.

(** ** Lines *)

Lemma no_linebreak_snoc (cur : string) (c : ascii) :
  no_linebreak cur = true -> PyStr.islinebreak c = false ->
  no_linebreak (cur +:+ String c EmptyString) = true.
Proof.
  intros Hcur Hc. unfold no_linebreak in *.
  rewrite all_chars_append, Hcur. simpl. rewrite Hc. reflexivity.
Qed.

(** No line of [splitlines] holds a line boundary. *)
Lemma splitlines_from_no_linebreak (n : nat) :
  forall s cur,
    String.length s <= n -> no_linebreak cur = true ->
    Forall (fun ln => no_linebreak ln = true) (PyStr.splitlines_from cur s).
Proof.
  induction n as [|n IH]; intros s cur Hlen Hcur.
  - destruct s; [|simpl in Hlen; lia].
    simpl. destruct (PyStr.is_empty cur); repeat constructor. exact Hcur.
  - destruct s as [|c r].
    + simpl. destruct (PyStr.is_empty cur); repeat constructor. exact Hcur.
    + simpl in Hlen. simpl PyStr.splitlines_from.
      destruct (PyStr.islinebreak c) eqn:Hc.
      * constructor; [exact Hcur|].
        destruct r as [|c' r'].
        -- simpl. constructor.
        -- destruct (Ascii.eqb c "013" && Ascii.eqb c' "010").
           ++ apply IH; [simpl in Hlen; lia | reflexivity].
           ++ apply IH; [lia | reflexivity].
      * apply IH; [lia|]. apply no_linebreak_snoc; assumption.
Qed.

Lemma splitlines_no_linebreak (s : string) :
  Forall (fun ln => no_linebreak ln = true) (PyStr.splitlines s).
Proof.
  apply (splitlines_from_no_linebreak (String.length s)); [lia | reflexivity].
Qed.

(** Reading a line that ends in "\n" or in "\r\n". *)
Lemma splitlines_from_line (eol : string) (l rest : string) :
  eol = LF \/ eol = CRLF ->
  no_linebreak l = true ->
  forall cur,
    PyStr.splitlines_from cur (l +:+ eol +:+ rest)
    = (cur +:+ l) :: PyStr.splitlines_from EmptyString rest.
Proof.
  intros Heol. induction l as [|c l IH]; intros Hl cur.
  - rewrite append_nil_l, append_nil_r.
    destruct Heol as [-> | ->]; destruct rest; reflexivity.
  - unfold no_linebreak in Hl. simpl in Hl.
    apply andb_true_iff in Hl as [Hc Hl]. apply negb_true_iff in Hc.
    rewrite append_cons. simpl PyStr.splitlines_from. rewrite Hc.
    rewrite (IH Hl), append_assoc. reflexivity.
Qed.

(** The round trip of lines: a text made of lines without line boundary,
    each ended by "\n" or each by "\r\n", splits into these lines. *)
Lemma splitlines_unlines (eol : string) (lines : list string) :
  eol = LF \/ eol = CRLF ->
  Forall (fun ln => no_linebreak ln = true) lines ->
  PyStr.splitlines (unlines eol lines) = lines.
Proof.
  intros Heol Hl. unfold PyStr.splitlines.
  induction Hl as [|l rest Hl _ IH]; [reflexivity|].
  simpl unlines. rewrite (splitlines_from_line eol l _ Heol Hl), append_nil_l, IH.
  reflexivity.
Qed.

(** ** What the parsers report *)

Lemma Forall_map_filter {A B : Type} (P : B -> Prop) (f : A -> B)
  (keep : A -> bool) (l : list A) :
  (forall x, In x l -> keep x = true -> P (f x)) ->
  Forall P (map f (List.filter keep l)).
Proof.
  intros H. apply List.Forall_forall. intros y Hy.
  apply in_map_iff in Hy as [x [<- Hx]].
  apply filter_In in Hx as [Hin Hk]. auto.
Qed.

(** X5: Every package name reported by [packages] is one trimmed, non-empty
    line of text that contains a dot. *)
Theorem packages_entries (popen : Popen) (self : UAFT)
  (serial : option string) (out err : string) :
  popen (packages_args self serial) None = Exited 0 out err ->
  exists names,
    packages popen self serial = Ok names
    /\ Forall (fun x => PyStr.strip x = x
                        /\ PyStr.nonempty x = true
                        /\ PyStr.contains "." x = true
                        /\ no_linebreak x = true) names.
Proof.
  intros Hrun. eexists. split.
  - unfold packages. rewrite (run_exited popen _ None 0%Z out err Hrun).
    reflexivity.
  - unfold packages_lines. apply Forall_map_filter. intros ln Hin Hk.
    apply andb_true_iff in Hk as [Hne Hdot].
    split; [apply strip_idem|]. split; [exact Hne|]. split.
    + rewrite (contains_strip "."); [exact Hdot | reflexivity].
    + apply all_chars_strip.
      pose proof (splitlines_no_linebreak out) as Hall.
      rewrite List.Forall_forall in Hall. apply Hall, Hin.
Qed.

Lemma packages_entries_witness :
  exists names,
    packages (fun _ _ => Exited 0 ("  com.company.game " +:+ CRLF +:+ "x") "")
      (mkUAFT (Path_of "/opt/UE/UnrealAndroidFileTool")) None
    = Ok names
    /\ Forall (fun x => PyStr.strip x = x
                        /\ PyStr.nonempty x = true
                        /\ PyStr.contains "." x = true
                        /\ no_linebreak x = true) names.
Proof.
  exact (packages_entries
           (fun _ _ => Exited 0 ("  com.company.game " +:+ CRLF +:+ "x") "")
           (mkUAFT (Path_of "/opt/UE/UnrealAndroidFileTool")) None
           ("  com.company.game " +:+ CRLF +:+ "x") "" eq_refl).
Defined.

(** X6: Every name reported by [list_traces] is one trimmed line of text that
    ends in ".trace" or ".utrace", and no more names are reported than the
    output has lines. *)
Theorem list_traces_entries (popen : Popen) (self : UAFT)
  (serial ip port : option string) (package : string) (token : option string)
  (out err : string) :
  popen (list_traces_args self serial ip port package token) None
  = Exited 0 out err ->
  exists files,
    list_traces popen self serial ip port package token = Ok files
    /\ Forall (fun x => PyStr.strip x = x
                        /\ is_trace_name x = true
                        /\ no_linebreak x = true) files
    /\ length files <= length (PyStr.splitlines out).
Proof.
  intros Hrun. eexists. split.
  - unfold list_traces. rewrite (run_exited popen _ None 0%Z out err Hrun).
    simpl negb. cbv iota. rewrite traces_loop_filter. reflexivity.
  - simpl app. split.
    + apply List.Forall_forall. intros x Hx.
      apply filter_In in Hx as [Hin Hk].
      apply in_map_iff in Hin as [ln [<- Hin]].
      split; [apply strip_idem|]. split; [exact Hk|].
      apply all_chars_strip.
      pose proof (splitlines_no_linebreak out) as Hall.
      rewrite List.Forall_forall in Hall. apply Hall, Hin.
    + etransitivity; [apply List.filter_length_le|].
      rewrite length_map. reflexivity.
Qed.

Lemma list_traces_entries_witness :
  exists files,
    list_traces (fun _ _ => Exited 0 ("  a.trace " +:+ LF +:+ "b.txt") "")
      (mkUAFT (Path_of "/opt/UE/UnrealAndroidFileTool"))
      None (Some "127.0.0.1") None "com.company.game" None
    = Ok files
    /\ Forall (fun x => PyStr.strip x = x
                        /\ is_trace_name x = true
                        /\ no_linebreak x = true) files
    /\ length files <= length (PyStr.splitlines ("  a.trace " +:+ LF +:+ "b.txt")).
Proof.
  exact (list_traces_entries
           (fun _ _ => Exited 0 ("  a.trace " +:+ LF +:+ "b.txt") "")
           (mkUAFT (Path_of "/opt/UE/UnrealAndroidFileTool"))
           None (Some "127.0.0.1") None "com.company.game" None
           ("  a.trace " +:+ LF +:+ "b.txt") "" eq_refl).
Defined.

(** X7: Every serial reported by [devices] is one line of text without a
    space and without whitespace at its end, does not start with "@" and
    is not the word "devices" in any letter case. *)
Theorem devices_entries (popen : Popen) (self : UAFT) (out err : string) :
  popen [str_of_path (uaft_path self); "devices"] None = Exited 0 out err ->
  exists serials,
    devices popen self = Ok serials
    /\ Forall (fun x => PyStr.rstrip x = x
                        /\ PyStr.contains " " x = false
                        /\ PyStr.startswith x "@" = false
                        /\ String.eqb (PyStr.lower x) "devices" = false
                        /\ no_linebreak x = true) serials.
Proof.
  intros Hrun. eexists. split.
  - apply (devices_exited popen self out err Hrun).
  - unfold devices_lines. apply List.Forall_forall. intros x Hx.
    apply filter_In in Hx as [Hin Hk].
    apply andb_true_iff in Hk as [Hsp Hdev].
    apply negb_true_iff in Hsp. apply negb_true_iff in Hdev.
    apply in_map_iff in Hin as [ln [<- Hin]].
    apply filter_In in Hin as [Hin _].
    split; [apply rstrip_lstrip_char, rstrip_strip|].
    split; [exact Hsp|]. split.
    + destruct (lstrip_at_split (PyStr.strip ln)) as [n [_ H]]. exact H.
    + split; [exact Hdev|].
      apply all_chars_lstrip_char, all_chars_strip.
      pose proof (splitlines_no_linebreak out) as Hall.
      rewrite List.Forall_forall in Hall. apply Hall, Hin.
Qed.

Lemma devices_entries_witness :
  exists serials,
    devices (fun _ _ => Exited 0 ("@R58M12ABCDE  " +:+ LF +:+ "Devices") "")
      (mkUAFT (Path_of "/opt/UE/UnrealAndroidFileTool"))
    = Ok serials
    /\ Forall (fun x => PyStr.rstrip x = x
                        /\ PyStr.contains " " x = false
                        /\ PyStr.startswith x "@" = false
                        /\ String.eqb (PyStr.lower x) "devices" = false
                        /\ no_linebreak x = true) serials.
Proof.
  exact (devices_entries
           (fun _ _ => Exited 0 ("@R58M12ABCDE  " +:+ LF +:+ "Devices") "")
           (mkUAFT (Path_of "/opt/UE/UnrealAndroidFileTool"))
           ("@R58M12ABCDE  " +:+ LF +:+ "Devices") "" eq_refl).
Defined.

(** X8: The whole output is read: for lines without line boundary, each ended
    by "\n" or each by "\r\n", [list_traces] reports the trace names among
    the trimmed lines, all of them and in their order. *)
Theorem list_traces_reads_every_line (popen : Popen) (self : UAFT)
  (serial ip port : option string) (package : string) (token : option string)
  (eol : string) (lines : list string) (err : string) :
  eol = LF \/ eol = CRLF ->
  Forall (fun ln => no_linebreak ln = true) lines ->
  popen (list_traces_args self serial ip port package token) None
  = Exited 0 (unlines eol lines) err ->
  list_traces popen self serial ip port package token
  = Ok (List.filter is_trace_name (map PyStr.strip lines)).
Proof.
  intros Heol Hl Hrun. unfold list_traces.
  rewrite (run_exited popen _ None 0%Z _ err Hrun). simpl negb. cbv iota.
  rewrite traces_loop_filter, (splitlines_unlines eol lines Heol Hl).
  reflexivity.
Qed.

Lemma list_traces_reads_every_line_witness :
  list_traces
    (fun _ _ => Exited 0 (unlines CRLF ["a.utrace"; "readme.md"; " b.trace"]) "")
    (mkUAFT (Path_of "/opt/UE/UnrealAndroidFileTool"))
    (Some "R58M12ABCDE") None None "com.company.game" None
  = Ok ["a.utrace"; "b.trace"].
Proof.
  apply (list_traces_reads_every_line
           (fun _ _ => Exited 0 (unlines CRLF ["a.utrace"; "readme.md"; " b.trace"]) "")
           (mkUAFT (Path_of "/opt/UE/UnrealAndroidFileTool"))
           (Some "R58M12ABCDE") None None "com.company.game" None
           CRLF ["a.utrace"; "readme.md"; " b.trace"] "").
  - right. reflexivity.
  - repeat constructor.
  - reflexivity.
Defined.

(** ** Package names and the list of packages *)

Lemma all_chars_impl (p q : ascii -> bool) (s : string) :
  (forall c, p c = true -> q c = true) ->
  all_chars p s = true -> all_chars q s = true.
Proof.
  intros Hpq. induction s as [|c r IH]; [auto|]. simpl. intros H.
  apply andb_true_iff in H as [Hc H]. rewrite (Hpq c Hc). auto.
Qed.

Lemma word_char_no_space (c : ascii) :
  word_char c = true -> negb (PyStr.isspace c) = true.
Proof.
  destruct c as [[] [] [] [] [] [] [] []]; intros H;
    try reflexivity; discriminate H.
Qed.

Lemma segment_no_space (x : string) : segment x = true -> no_space x = true.
Proof.
  intros H. apply andb_true_iff in H as [_ H].
  apply (all_chars_impl word_char); [apply word_char_no_space | exact H].
Qed.

Lemma dotted_no_space (pieces : list string) :
  forallb segment pieces = true -> no_space (dotted pieces) = true.
Proof.
  induction pieces as [|x rest IH]; [reflexivity|]. simpl. intros H.
  apply andb_true_iff in H as [Hx Hrest].
  pose proof (segment_no_space x Hx) as Hx'. specialize (IH Hrest).
  unfold no_space in *. simpl. rewrite all_chars_append, Hx'. exact IH.
Qed.

(** A string accepted by [_valid_package] holds no whitespace and holds a
    dot. *)
Lemma valid_package_text (pkg : string) :
  _valid_package pkg = true ->
  no_space pkg = true /\ PyStr.contains "." pkg = true.
Proof.
  intros H. apply fullmatch_Matches, package_pattern_Matches in H
    as [x [y [rest [Hx [Hp ->]]]]].
  split.
  - pose proof (segment_no_space x Hx) as Hx'.
    pose proof (dotted_no_space _ Hp) as Hp'.
    unfold no_space in *. rewrite all_chars_append, Hx'. exact Hp'.
  - simpl dotted. apply (contains_append x "." (y +:+ dotted rest)).
Qed.

(** X9: An output line that is a valid package name is reported by [packages],
    as it is. *)
Theorem valid_package_is_reported (popen : Popen) (self : UAFT)
  (serial : option string) (out err : string) (ln : string) :
  popen (packages_args self serial) None = Exited 0 out err ->
  In ln (PyStr.splitlines out) ->
  _valid_package ln = true ->
  exists names, packages popen self serial = Ok names /\ In ln names.
Proof.
  intros Hrun Hin Hv. destruct (valid_package_text ln Hv) as [Hsp Hdot].
  eexists. split.
  - unfold packages. rewrite (run_exited popen _ None 0%Z out err Hrun).
    reflexivity.
  - unfold packages_lines. apply in_map_iff. exists ln. split.
    + apply strip_no_space, Hsp.
    + apply filter_In. split; [exact Hin|].
      rewrite Hdot, (contains_nonblank "." ln); auto.
Qed.

Lemma valid_package_is_reported_witness :
  exists names,
    packages (fun _ _ => Exited 0 ("Packages:" +:+ LF +:+ "com.company.game" +:+ LF) "")
      (mkUAFT (Path_of "/opt/UE/UnrealAndroidFileTool")) (Some "R58M12ABCDE")
    = Ok names
    /\ In "com.company.game" names.
Proof.
  apply (valid_package_is_reported
           (fun _ _ => Exited 0 ("Packages:" +:+ LF +:+ "com.company.game" +:+ LF) "")
           (mkUAFT (Path_of "/opt/UE/UnrealAndroidFileTool")) (Some "R58M12ABCDE")
           ("Packages:" +:+ LF +:+ "com.company.game" +:+ LF) ""
           "com.company.game").
  - reflexivity.
  - right. left. reflexivity.
  - reflexivity.
Defined.

(** ** What making the directory does to the tree *)

Lemma os_mkdir_sound (fs fs' : FS) (p : Path) :
  os_mkdir fs p = Ok fs' ->
  grows fs fs' /\ is_dir fs' p = true /\ (tree_ok fs -> tree_ok fs').
Proof.
  unfold os_mkdir. intros H.
  destruct (node_at fs (key fs p)) as [n|] eqn:Ep; [discriminate H|].
  destruct (parts p) as [|z zs]; [discriminate H|].
  destruct (key fs p) as [|y k0] eqn:Ek; [discriminate Ep|].
  destruct (exists_last (l := y :: k0)) as [k [x Ekx]]; [discriminate|].
  rewrite Ekx in H, Ep. rewrite removelast_last in H.
  destruct (node_at fs k) as [[|]|] eqn:Eparent; try discriminate H.
  injection H as <-. split; [apply grows_insert; exact Ep|]. split.
  - unfold is_dir.
    change (key {| cwd := cwd fs; nodes := <[k ++ [x]:=Dir]> (nodes fs) |} p)
      with (key fs p).
    rewrite Ek, Ekx, node_at_snoc. simpl. rewrite lookup_insert_eq. reflexivity.
  - intros Hok. apply tree_ok_insert; assumption.
Qed.

Lemma mkdir_exist_ok_sound (fs fs' : FS) (p : Path) :
  mkdir_exist_ok fs p = Ok fs' ->
  grows fs fs' /\ is_dir fs' p = true /\ (tree_ok fs -> tree_ok fs').
Proof.
  unfold mkdir_exist_ok. intros H.
  destruct (os_mkdir fs p) as [fs1|e] eqn:E.
  - injection H as <-. apply os_mkdir_sound, E.
  - destruct (is_dir fs p) eqn:Hd; [|destruct e; discriminate H].
    assert (fs' = fs) as -> by (destruct e; congruence).
    split; [apply grows_refl|]. split; [exact Hd | auto].
Qed.

(** Whenever [mkdir] returns, the directory exists, every entry there was
    before is as it was, and what was added are directories. *)
Lemma mkdir_parents_from_sound (r : string) (rparts : list string) :
  forall fs fs',
    mkdir_parents_from r rparts fs = Ok fs' ->
    grows fs fs'
    /\ is_dir fs' {| root := r; parts := rev rparts |} = true
    /\ (tree_ok fs -> tree_ok fs').
Proof.
  induction rparts as [|x rp IH]; intros fs fs' H; simpl in H.
  - destruct (os_mkdir fs {| root := r; parts := [] |}) as [fs1|e] eqn:E.
    + injection H as <-. apply (os_mkdir_sound _ _ _ E).
    + destruct (is_dir fs {| root := r; parts := [] |}) eqn:Hd;
        [|destruct e; discriminate H].
      assert (fs' = fs) as -> by (destruct e; congruence).
      split; [apply grows_refl|]. split; [exact Hd | auto].
  - destruct (os_mkdir fs {| root := r; parts := rev rp ++ [x] |})
      as [fs1|e] eqn:E.
    + injection H as <-. apply (os_mkdir_sound _ _ _ E).
    + assert ((exists m, e = FileNotFoundError m)
              \/ (forall m, e <> FileNotFoundError m)) as [[m ->]|Hne].
      { destruct e; try (right; discriminate). left. eexists. reflexivity. }
      * destruct (mkdir_parents_from r rp fs) as [fs1|e1] eqn:E1;
          [|discriminate H].
        destruct (IH fs fs1 E1) as [G1 [_ T1]].
        destruct (mkdir_exist_ok_sound fs1 fs' _ H) as [G2 [D2 T2]].
        split; [apply (grows_trans fs fs1 fs'); assumption|].
        split; [exact D2 | auto].
      * destruct (is_dir fs {| root := r; parts := rev rp ++ [x] |}) eqn:Hd.
        -- assert (fs' = fs) as ->.
           { destruct e; try congruence; exfalso; exact (Hne _ eq_refl). }
           split; [apply grows_refl|]. split; [exact Hd | auto].
        -- destruct e; try discriminate H; exfalso; exact (Hne _ eq_refl).
Qed.

Lemma mkdir_parents_sound (fs fs' : FS) (p : Path) :
  mkdir_parents_exist_ok fs p = Ok fs' ->
  grows fs fs' /\ is_dir fs' p = true /\ (tree_ok fs -> tree_ok fs').
Proof.
  intros H. apply mkdir_parents_from_sound in H.
  rewrite rev_involutive in H.
  replace {| root := root p; parts := parts p |} with p in H
    by (destruct p; reflexivity).
  exact H.
Qed.

(** [mkdir] fails with one of three errors of the file system. *)
Lemma mkdir_parents_from_error (r : string) (rparts : list string) :
  forall fs e,
    mkdir_parents_from r rparts fs = Raise e ->
    exists m, e = FileExistsError m \/ e = FileNotFoundError m
              \/ e = NotADirectoryError m.
Proof.
  assert (forall fs p e, os_mkdir fs p = Raise e ->
            exists m, e = FileExistsError m \/ e = FileNotFoundError m
                      \/ e = NotADirectoryError m) as Hos.
  { intros fs p e. unfold os_mkdir.
    destruct (node_at fs (key fs p));
      [intros H; injection H as <-; eauto|].
    destruct (parts p); [intros H; injection H as <-; eauto|].
    destruct (node_at fs (removelast (key fs p))) as [[|]|];
      intros H; try discriminate H; injection H as <-; eauto. }
  induction rparts as [|x rp IH]; intros fs e H; simpl in H.
  - destruct (os_mkdir fs {| root := r; parts := [] |}) as [fs1|e0] eqn:E;
      [discriminate H|].
    destruct (Hos _ _ _ E) as [m [-> | [-> | ->]]];
      try (destruct (is_dir fs _); [discriminate H|]);
      injection H as <-; eauto.
  - destruct (os_mkdir fs {| root := r; parts := rev rp ++ [x] |})
      as [fs1|e0] eqn:E; [discriminate H|].
    destruct (Hos _ _ _ E) as [m [-> | [-> | ->]]].
    + destruct (is_dir fs _); [discriminate H|]. injection H as <-; eauto.
    + destruct (mkdir_parents_from r rp fs) as [fs1|e1] eqn:E1.
      * unfold mkdir_exist_ok in H.
        destruct (os_mkdir fs1 {| root := r; parts := rev rp ++ [x] |})
          as [fs2|e2] eqn:E2; [discriminate H|].
        destruct (Hos _ _ _ E2) as [m2 [-> | [-> | ->]]];
          try (destruct (is_dir fs1 _); [discriminate H|]);
          injection H as <-; eauto.
      * injection H as <-. apply (IH fs e1 E1).
    + destruct (is_dir fs _); [discriminate H|]. injection H as <-; eauto.
Qed.

(** ** Pulling a trace: failures and the tree *)





(** X13: A regular file in the way stops [pull_trace] before the tool is
    started: in a well-formed tree where the destination or one of its
    ancestors is a regular file, [pull_trace] raises an error of the file
    system, whatever the tool would do, and leaves the tree as it was. *)
Theorem pull_trace_file_in_the_way (popen : Popen) (writes : Writes)
  (self : UAFT)
  (serial ip port : option string) (package : string) (token : option string)
  (remote_file : string) (local_dir : Path) (fs : FS) (n : nat) :
  tree_ok fs ->
  is_file fs (ancestor n local_dir) = true ->
  exists e m,
    pull_trace popen writes self serial ip port package token remote_file
      local_dir fs
    = (Raise e, fs)
    /\ (e = FileExistsError m \/ e = FileNotFoundError m
        \/ e = NotADirectoryError m).
Proof.
  intros Hok Hfile. unfold pull_trace.
  destruct (mkdir_parents_exist_ok fs local_dir) as [fs1|e] eqn:E.
  - exfalso.
    destruct (mkdir_parents_sound fs fs1 local_dir E) as [[C N] [D T]].
    pose proof (ancestors_are_dirs fs1 local_dir (T Hok) D n) as Hd.
    fold (ancestor n local_dir) in Hd.
    unfold is_dir in Hd. unfold is_file in Hfile.
    rewrite (key_grows fs fs1 _ C) in Hd.
    destruct (N (key fs (ancestor n local_dir))) as [Es|[En _]].
    + rewrite Es in Hd.
      destruct (node_at fs (key fs (ancestor n local_dir))) as [[|]|];
        discriminate.
    + rewrite En in Hfile. discriminate Hfile.
  - destruct (mkdir_parents_from_error _ _ _ _ E) as [m Hm].
    exists e, m. split; [reflexivity | exact Hm].
Qed.

Lemma pull_trace_file_in_the_way_witness :
  let fs : FS :=
    {| cwd := []; nodes := <[["home"; "traces"] := File]> (<[["home"] := Dir]> ∅) |} in
  exists e m,
    pull_trace (fun _ _ => Exited 0 "" "") (fun _ _ => {| cwd := []; nodes := ∅ |})
      (mkUAFT (Path_of "/opt/UE/UnrealAndroidFileTool"))
      (Some "R58M12ABCDE") None None "com.company.game" None
      "^saved/Traces/Run2.utrace" (Path_of "/home/traces/today") fs
    = (Raise e, fs)
    /\ (e = FileExistsError m \/ e = FileNotFoundError m
        \/ e = NotADirectoryError m).
Proof.
  intros fs.
  assert (tree_ok fs) as Hok.
  { intros k x [v Hv]. unfold fs in Hv. simpl in Hv.
    destruct (decide (["home"; "traces"] = k ++ [x])) as [E|N1].
    - change ["home"; "traces"] with (["home"] ++ ["traces"]) in E.
      apply app_inj_tail in E as [<- _]. reflexivity.
    - rewrite lookup_insert_ne in Hv by exact N1.
      destruct (decide (["home"] = k ++ [x])) as [E|N2].
      + change ["home"] with ([] ++ ["home"]) in E.
        apply app_inj_tail in E as [<- _]. reflexivity.
      + rewrite lookup_insert_ne in Hv by exact N2.
        rewrite lookup_empty in Hv. discriminate Hv. }
  assert (is_file fs (ancestor 2 (Path_of "/home/traces/today")) = true) as Hf
    by (vm_compute; reflexivity).
  exact (pull_trace_file_in_the_way (fun _ _ => Exited 0 "" "")
           (fun _ _ => {| cwd := []; nodes := ∅ |})
           (mkUAFT (Path_of "/opt/UE/UnrealAndroidFileTool"))
           (Some "R58M12ABCDE") None None "com.company.game" None
           "^saved/Traces/Run2.utrace" (Path_of "/home/traces/today") fs 2
           Hok Hf).
Defined.

(** ** The connection parameters read from the window *)

Lemma strip_or_None_spec (s : string) :
  match strip_or_None s with
  | None => PyStr.nonempty (PyStr.strip s) = false
  | Some t => t = PyStr.strip s /\ PyStr.nonempty t = true
  end.
Proof.
  unfold strip_or_None. destruct (PyStr.nonempty (PyStr.strip s)) eqn:E; auto.
Qed.

Lemma strip_or_None_clean (s : string) :
  absent_if_empty (strip_or_None s) = strip_or_None s
  /\ option_map PyStr.strip (strip_or_None s) = strip_or_None s.
Proof.
  pose proof (strip_or_None_spec s) as H.
  destruct (strip_or_None s) as [t|]; [|split; reflexivity].
  destruct H as [-> Hne]. unfold absent_if_empty. simpl.
  rewrite Hne, strip_idem. split; reflexivity.
Qed.

(** Where the IP flag stands in the vector, the serial is empty or absent
    and the flag's value is the IP address. *)
Lemma ip_option_origin (self : UAFT)
  (serial ip port package token : option string) (v : string) :
  In ("-ip", v) (options_of (_base_args self serial ip port package token)) ->
  truthy serial = false /\ truthy ip = true /\ v = the ip.
Proof.
  unfold _base_args, options_of.
  destruct (truthy serial), (truthy ip), (truthy port), (truthy package),
    (truthy token); simpl; intros Hin;
    repeat match goal with
           | H : _ \/ _ |- _ => destruct H as [H|H]
           | H : (_, _) = (_, _) |- _ =>
               first [discriminate H | injection H as <-; auto]
           | H : False |- _ => destruct H
           end.
Qed.

(** X14: The parameters the handlers read from the window never hold both a
    serial and an IP address, each optional one is absent or a non-empty
    trimmed text, and the package is trimmed; so the vector built from
    them has the IP flag only when the serial field is blank, with the
    trimmed text of the IP field. *)
Theorem connection_parameters (app : App) (self : UAFT)
  (serial ip port : option string) (pkg : string) (token : option string) :
  connection app = (serial, ip, port, pkg, token) ->
  (serial = None \/ ip = None)
  /\ Forall (fun o => absent_if_empty o = o /\ option_map PyStr.strip o = o)
            [serial; ip; port; token]
  /\ PyStr.strip pkg = pkg
  /\ (forall v,
        In ("-ip", v)
           (options_of (_base_args self serial ip port (Some pkg) token)) ->
        PyStr.nonempty (PyStr.strip (ui_serial app)) = false
        /\ v = PyStr.strip (ui_ip app)).
Proof.
  unfold connection. intros H. injection H as <- <- <- <- <-.
  pose proof (strip_or_None_spec (ui_serial app)) as Hs.
  pose proof (strip_or_None_spec (ui_ip app)) as Hi.
  split; [|split; [|split]].
  - destruct (strip_or_None (ui_serial app)) as [t|]; [|auto].
    destruct Hs as [_ Hs]. simpl. rewrite Hs. auto.
  - repeat constructor; try apply strip_or_None_clean.
    + destruct (truthy (strip_or_None (ui_serial app))); [reflexivity|].
      apply strip_or_None_clean.
    + destruct (truthy (strip_or_None (ui_serial app))); [reflexivity|].
      apply strip_or_None_clean.
  - apply strip_idem.
  - intros v Hin.
    apply ip_option_origin in Hin as [Hns [Hip ->]].
    destruct (strip_or_None (ui_serial app)) as [t|].
    + destruct Hs as [_ Hs]. simpl in Hns. congruence.
    + simpl in Hip |- *. split; [exact Hs|].
      destruct (strip_or_None (ui_ip app)) as [a|]; [|discriminate Hip].
      destruct Hi as [-> _]. reflexivity.
Qed.

Lemma connection_parameters_witness :
  connection (window "/opt/UE/UnrealAndroidFileTool" "  " " com.company.game ")
  = (None, Some "127.0.0.1", None, "com.company.game", None)
  /\ forall v,
       In ("-ip", v)
          (options_of (_base_args (mkUAFT (Path_of "/opt/UE/UnrealAndroidFileTool"))
                         None (Some "127.0.0.1") None
                         (Some "com.company.game") None)) ->
       v = "127.0.0.1".
Proof.
  split; [reflexivity|]. intros v Hin.
  exact (proj2 (proj2 (proj2 (proj2
           (connection_parameters
              (window "/opt/UE/UnrealAndroidFileTool" "  " " com.company.game ")
              (mkUAFT (Path_of "/opt/UE/UnrealAndroidFileTool"))
              None (Some "127.0.0.1") None "com.company.game" None
              eq_refl))) v Hin)).
Defined.

(** ** Substrings *)

Lemma prefix_split (p s : string) :
  String.prefix p s = true -> exists rest, s = p +:+ rest.
Proof.
  revert s. induction p as [|c p IH]; intros s H.
  - exists s. reflexivity.
  - destruct s as [|c' s]; [discriminate H|]. simpl in H.
    destruct (ascii_dec c c') as [<-|_]; [|discriminate H].
    destruct (IH s H) as [rest ->]. exists rest. reflexivity.
Qed.

Lemma contains_split (x s : string) :
  PyStr.contains x s = true -> exists a b, s = a +:+ x +:+ b.
Proof.
  induction s as [|c r IH]; rewrite contains_unfold; intros H.
  - apply orb_true_iff in H as [H|H]; [|discriminate H].
    apply prefix_split in H as [rest ->]. exists EmptyString, rest. reflexivity.
  - apply orb_true_iff in H as [H|H].
    + apply prefix_split in H as [rest ->]. exists EmptyString, rest. reflexivity.
    + destruct (IH H) as [a [b ->]]. exists (String c a), b. reflexivity.
Qed.

(** A text holding [x] holds it still between other texts. *)
Lemma contains_inside (x t a b : string) :
  PyStr.contains x t = true -> PyStr.contains x (a +:+ t +:+ b) = true.
Proof.
  intros H. apply contains_split in H as [a' [b' ->]].
  rewrite !append_assoc, <- (append_assoc a a').
  apply contains_append.
Qed.

(** A text holding a phrase holds each part of the phrase. *)
Lemma contains_part (a x b s : string) :
  PyStr.contains (a +:+ x +:+ b) s = true -> PyStr.contains x s = true.
Proof.
  intros H. apply contains_split in H as [a' [b' ->]].
  rewrite !append_assoc, <- (append_assoc a' a).
  apply contains_append.
Qed.

(** ** Looking up the device *)

(** X15: When one of the two queries to adb cannot be started, whichever it is,
    [_adb_device_info] answers with the placeholder "?" and the serial:
    what the first query gave is not kept when the second fails. *)
Theorem adb_device_info_placeholder (popen : Popen) (serial : string)
  (e : exn) :
  popen ["adb"; "-s"; serial; "shell"; "getprop"; "ro.product.manufacturer"] None
  = LaunchFails e
  \/ popen ["adb"; "-s"; serial; "shell"; "getprop"; "ro.product.model"] None
     = LaunchFails e ->
  _adb_device_info popen serial = ("?", serial).
Proof.
  assert (forall cmd, popen cmd None = LaunchFails e ->
            exists e', run popen cmd None = Raise e') as Hrun.
  { intros cmd H. unfold run. simpl. rewrite H.
    destruct e; try (eexists; reflexivity).
    destruct cmd; eexists; reflexivity. }
  intros [H|H]; apply Hrun in H as [e' H]; unfold _adb_device_info.
  - rewrite H. reflexivity.
  - destruct (run popen ["adb"; "-s"; serial; "shell"; "getprop";
                         "ro.product.manufacturer"] None)
      as [[[code out] err]|]; [rewrite H|]; reflexivity.
Qed.

Lemma adb_device_info_placeholder_witness :
  _adb_device_info
    (fun cmd _ =>
       if existsb (String.eqb "ro.product.model") cmd
       then LaunchFails (FileNotFoundError "adb")
       else Exited 0 ("samsung" +:+ LF) "")
    "R58M12ABCDE"
  = ("?", "R58M12ABCDE").
Proof.
  apply (adb_device_info_placeholder _ "R58M12ABCDE" (FileNotFoundError "adb")).
  right. reflexivity.
Defined.

(** ** The tool path *)

(** X16: When [_require_uaft] accepts, the adapter it returns holds the trimmed
    text of the path field as a path, that path is a regular file of the
    tree, and the window is as before but for the warning added to the
    log, which is added on a platform named "win..." only. *)
Theorem require_uaft_accepts (platform : string) (fs : FS) (app app' : App)
  (uaft : UAFT) :
  _require_uaft platform fs app = (Ok uaft, app') ->
  uaft_path uaft = Path_of (PyStr.strip (ui_uaft_path app))
  /\ is_file fs (uaft_path uaft) = true
  /\ (app' = app \/ app' = _log app uaft_exe_warning)
  /\ (PyStr.startswith platform "win" = false -> app' = app).
Proof.
  unfold _require_uaft. intros H.
  destruct (path_exists_in fs _); [|discriminate H].
  destruct (is_file fs _) eqn:Hf; [|discriminate H].
  simpl in H. injection H as <- <-. simpl.
  split; [reflexivity|]. split; [exact Hf|]. split.
  - destruct (_ && _); auto.
  - intros ->. reflexivity.
Qed.

Lemma require_uaft_accepts_witness :
  let fs : FS :=
    {| cwd := []; nodes := <[["opt"; "uaft"] := File]> (<[["opt"] := Dir]> ∅) |} in
  is_file fs (Path_of "/opt/uaft") = true.
Proof.
  intros fs.
  assert (_require_uaft "linux" fs (window " /opt/uaft " "" "")
          = (Ok (mkUAFT (Path_of "/opt/uaft")), window " /opt/uaft " "" "")) as H
    by (vm_compute; reflexivity).
  exact (proj1 (proj2 (require_uaft_accepts "linux" fs _ _ _ H))).
Defined.

(** X17: When [_require_uaft] refuses, the window is unchanged and the error is
    one of its two messages: the first when nothing is at the path, the
    second when what is there is no regular file.  A blank path field
    names the working directory, so it gets the second. *)
Theorem require_uaft_refuses (platform : string) (fs : FS) (app app' : App)
  (e : exn) :
  _require_uaft platform fs app = (Raise e, app') ->
  app' = app
  /\ is_file fs (Path_of (PyStr.strip (ui_uaft_path app))) = false
  /\ (e = RuntimeError uaft_missing_message
      \/ e = RuntimeError uaft_folder_message)
  /\ (PyStr.nonempty (PyStr.strip (ui_uaft_path app)) = false ->
      node_at fs (cwd fs) = Some Dir ->
      e = RuntimeError uaft_folder_message).
Proof.
  unfold _require_uaft. intros H.
  destruct (path_exists_in fs _) eqn:Hex; simpl in H.
  - destruct (is_file fs _) eqn:Hf; simpl in H; [discriminate H|].
    injection H as <- <-. auto.
  - injection H as <- <-. split; [reflexivity|]. split.
    + unfold path_exists_in in Hex. unfold is_file.
      destruct (node_at fs _); [discriminate Hex | reflexivity].
    + split; [auto|]. intros Hblank Hcwd. exfalso.
      destruct (PyStr.strip (ui_uaft_path app)); [|discriminate Hblank].
      unfold path_exists_in, key in Hex. simpl in Hex.
      rewrite app_nil_r, Hcwd in Hex. discriminate Hex.
Qed.

Lemma require_uaft_refuses_witness :
  let fs : FS := {| cwd := ["home"]; nodes := <[["home"] := Dir]> ∅ |} in
  fst (_require_uaft "win32" fs (window "   " "" ""))
  = Raise (RuntimeError uaft_folder_message).
Proof.
  intros fs.
  destruct (_require_uaft "win32" fs (window "   " "" "")) as [[u|e] app'] eqn:H;
    [vm_compute in H; discriminate H|].
  simpl. f_equal.
  apply (proj2 (proj2 (proj2 (require_uaft_refuses "win32" fs _ _ _ H))));
    reflexivity.
Defined.

(** ** Errors of the listing handlers *)

(** [_require_uaft] changes no field of the window. *)
Lemma require_uaft_fields (platform : string) (fs : FS) (app app' : App)
  (r : result UAFT) :
  _require_uaft platform fs app = (r, app') ->
  connection app' = connection app
  /\ ui_trace_args app' = ui_trace_args app
  /\ ui_serial app' = ui_serial app.
Proof.
  unfold _require_uaft. intros H.
  destruct (path_exists_in fs _); simpl in H; [|injection H as _ <-; auto].
  destruct (is_file fs _); simpl in H; [|injection H as _ <-; auto].
  destruct (_ && _); injection H as _ <-; auto.
Qed.

(** The second test of the handler never decides: a text that holds
    "valid UnrealAndroidFileTool path" holds "UnrealAndroidFileTool". *)
Lemma listing_error_test (app : App) (e : exn) :
  listing_error app e
  = if PyStr.contains "UnrealAndroidFileTool" (str_of_exn e)
    then _err app pick_uaft_message
    else _err app (str_of_exn e).
Proof.
  unfold listing_error.
  destruct (PyStr.contains "UnrealAndroidFileTool" (str_of_exn e)) eqn:E1;
    [reflexivity|].
  destruct (PyStr.contains "valid UnrealAndroidFileTool path" (str_of_exn e))
    eqn:E2; [|reflexivity].
  apply (contains_part "valid " "UnrealAndroidFileTool" " path") in E2.
  congruence.
Qed.

(** X18: Whatever makes [_require_uaft] refuse the path, a missing file or a
    folder, [on_list_packages] reports the same advice to pick the tool,
    not the message of [_require_uaft]; the lists and fields of the window
    stay as they were, and the tool is not started. *)
Theorem on_list_packages_refused (platform : string) (fs : FS) (app app' : App)
  (e : exn) :
  _require_uaft platform fs app = (Raise e, app') ->
  forall popen,
    on_list_packages platform fs popen app = _err app pick_uaft_message.
Proof.
  intros H popen. unfold on_list_packages. rewrite H.
  unfold _require_uaft in H.
  destruct (path_exists_in fs _); simpl in H.
  - destruct (is_file fs _); simpl in H; [discriminate H|].
    injection H as <- <-. reflexivity.
  - injection H as <- <-. reflexivity.
Qed.

Lemma on_list_packages_refused_witness :
  on_list_packages "linux" {| cwd := []; nodes := ∅ |}
    (fun _ _ => Exited 0 "" "") (window "/opt/uaft" "" "")
  = _err (window "/opt/uaft" "" "") pick_uaft_message.
Proof.
  apply (on_list_packages_refused "linux" {| cwd := []; nodes := ∅ |}
           (window "/opt/uaft" "" "") (window "/opt/uaft" "" "")
           (RuntimeError uaft_missing_message)).
  vm_compute. reflexivity.
Defined.

Lemma packages_launch_permission (popen : Popen) (self : UAFT)
  (serial : option string) (m : string) :
  (forall cmd, popen cmd None = LaunchFails (PermissionError m)) ->
  packages popen self serial
  = Raise (RuntimeError (launch_message (str_of_path (uaft_path self)) m)).
Proof.
  intros H. unfold packages, packages_args.
  destruct (truthy serial); simpl;
    rewrite (run_permission popen _ _ m) by apply H; reflexivity.
Qed.

(** X19: When the tool's path holds the name "UnrealAndroidFileTool" and the
    tool cannot be started for lack of permission, [on_list_packages]
    reports the advice to pick the tool: the message of [run], with its
    hint on unblocking the executable, is not shown. *)
Theorem on_list_packages_hides_permission_hint (platform : string) (fs : FS)
  (popen : Popen) (app app' : App) (uaft : UAFT) (m : string) :
  _require_uaft platform fs app = (Ok uaft, app') ->
  PyStr.contains "UnrealAndroidFileTool" (str_of_path (uaft_path uaft)) = true ->
  (forall cmd, popen cmd None = LaunchFails (PermissionError m)) ->
  on_list_packages platform fs popen app = _err app' pick_uaft_message.
Proof.
  intros Hreq Hname Hfail. unfold on_list_packages. rewrite Hreq.
  rewrite (packages_launch_permission popen uaft _ m Hfail).
  rewrite listing_error_test. simpl str_of_exn.
  unfold launch_message.
  rewrite (contains_inside "UnrealAndroidFileTool"
             (str_of_path (uaft_path uaft)) "Permission error launching: " _ Hname).
  reflexivity.
Qed.

Lemma on_list_packages_hides_permission_hint_witness :
  let fs : FS :=
    {| cwd := [];
       nodes := <[["opt"; "UnrealAndroidFileTool"] := File]> (<[["opt"] := Dir]> ∅) |} in
  on_list_packages "linux" fs
    (fun _ _ => LaunchFails (PermissionError "[Errno 13] Permission denied"))
    (window "/opt/UnrealAndroidFileTool" "" "")
  = _err (window "/opt/UnrealAndroidFileTool" "" "") pick_uaft_message.
Proof.
  intros fs.
  apply (on_list_packages_hides_permission_hint "linux" fs _
           (window "/opt/UnrealAndroidFileTool" "" "")
           (window "/opt/UnrealAndroidFileTool" "" "")
           (mkUAFT (Path_of "/opt/UnrealAndroidFileTool"))
           "[Errno 13] Permission denied").
  - vm_compute. reflexivity.
  - reflexivity.
  - reflexivity.
Defined.

(** ** Refreshing the list of traces *)

(** X20: When the tool answers the listing with a non-zero exit code and
    output that has been read and decoded, [on_refresh_traces] reports no
    error: it empties the list of traces and logs that 0 traces were
    found. *)
Theorem on_refresh_traces_tool_failure (platform : string) (fs : FS)
  (popen : Popen) (app app' : App) (uaft : UAFT)
  (serial ip port : option string) (pkg : string) (token : option string)
  (code : Z) (out err : string) :
  _require_uaft platform fs app = (Ok uaft, app') ->
  connection app = (serial, ip, port, pkg, token) ->
  popen (list_traces_args uaft serial ip port pkg token) None
  = Exited code out err ->
  code <> 0%Z ->
  on_refresh_traces platform fs popen app
  = _log (show_traces app' []) "Found 0 trace(s) under ^saved/Traces".
Proof.
  intros Hreq Hconn Hrun Hcode. unfold on_refresh_traces. rewrite Hreq.
  destruct (require_uaft_fields _ _ _ _ _ Hreq) as [-> _]. rewrite Hconn.
  unfold list_traces. rewrite (run_exited popen _ None code out err Hrun).
  destruct (Z.eqb_spec code 0) as [|_]; [contradiction | reflexivity].
Qed.

Lemma on_refresh_traces_tool_failure_witness :
  let fs : FS :=
    {| cwd := []; nodes := <[["opt"; "uaft"] := File]> (<[["opt"] := Dir]> ∅) |} in
  ui_events
    (on_refresh_traces "linux" fs (fun _ _ => Exited 1 "" "device offline")
       (window "/opt/uaft" "R58M12ABCDE" "com.company.game"))
  = [Log "Found 0 trace(s) under ^saved/Traces"].
Proof.
  intros fs.
  rewrite (on_refresh_traces_tool_failure "linux" fs
             (fun _ _ => Exited 1 "" "device offline")
             (window "/opt/uaft" "R58M12ABCDE" "com.company.game")
             (window "/opt/uaft" "R58M12ABCDE" "com.company.game")
             (mkUAFT (Path_of "/opt/uaft"))
             (Some "R58M12ABCDE") None None "com.company.game" None
             1%Z "" "device offline").
  - reflexivity.
  - vm_compute. reflexivity.
  - reflexivity.
  - reflexivity.
  - lia.
Defined.

(** ** Writing and pushing the command file *)

Lemma require_uaft_cases (platform : string) (fs : FS) (app : App) :
  (is_file fs (Path_of (PyStr.strip (ui_uaft_path app))) = false
   /\ exists e, _require_uaft platform fs app = (Raise e, app))
  \/ (is_file fs (Path_of (PyStr.strip (ui_uaft_path app))) = true
      /\ exists app',
           _require_uaft platform fs app
           = (Ok {| uaft_path := Path_of (PyStr.strip (ui_uaft_path app)) |}, app')
           /\ (app' = app \/ app' = _log app uaft_exe_warning)).
Proof.
  unfold _require_uaft.
  destruct (path_exists_in fs _) eqn:Hex; simpl.
  - destruct (is_file fs _) eqn:Hf; simpl.
    + right. split; [reflexivity|]. eexists. split; [reflexivity|].
      destruct (_ && _); auto.
    + left. split; [reflexivity|]. eexists. reflexivity.
  - left. split; [|eexists; reflexivity].
    unfold path_exists_in in Hex. unfold is_file.
    destruct (node_at fs _); [discriminate Hex | reflexivity].
Qed.

Lemma valid_package_nonempty (pkg : string) :
  _valid_package pkg = true -> PyStr.nonempty pkg = true.
Proof.
  intros H. apply valid_package_text in H as [_ H].
  destruct pkg; [discriminate H | reflexivity].
Qed.

Lemma command_file_path (home : Path) :
  joinpath home "UECommandLine.txt"
  = {| root := root home; parts := parts home ++ ["UECommandLine.txt"] |}.
Proof. reflexivity. Qed.

(** X21: Nothing is written and the tool is not started unless the tool's path
    is a regular file, the trimmed package is a valid package name and the
    trace arguments are not blank: otherwise [on_write_cmd] reports an
    error, the same whatever the tool would do, and leaves the disk as it
    was. *)
Theorem on_write_cmd_gate (platform : string) (home : Path) (app : App)
  (d : Disk) :
  is_file (tree d) (Path_of (PyStr.strip (ui_uaft_path app))) = false
  \/ _valid_package (PyStr.strip (ui_package app)) = false
  \/ PyStr.nonempty (PyStr.strip (ui_trace_args app)) = false ->
  exists app' text,
    (app' = app \/ app' = _log app uaft_exe_warning)
    /\ forall popen,
         on_write_cmd platform home popen app d = (_err app' text, d).
Proof.
  intros H. unfold on_write_cmd.
  destruct (require_uaft_cases platform (tree d) app)
    as [[Hf [e Hreq]]|[Hf [app' [Hreq Happ]]]].
  - exists app, (str_of_exn e). split; [auto|]. intros popen.
    rewrite Hreq. reflexivity.
  - rewrite Hreq.
    destruct (require_uaft_fields _ _ _ _ _ Hreq) as [Hconn [Hargs _]].
    unfold connection in *. injection Hconn as _ _ _ Hpkg _.
    destruct H as [H|[H|H]]; [congruence| |].
    + destruct (PyStr.nonempty (PyStr.strip (ui_package app'))) eqn:Hne.
      * exists app', package_invalid_message. split; [exact Happ|].
        intros popen. cbv beta iota zeta. rewrite ?Hpkg, ?Hargs, ?H. reflexivity.
      * exists app', package_required_message. split; [exact Happ|].
        intros popen. cbv beta iota zeta. rewrite ?Hpkg, ?Hargs, ?H. reflexivity.
    + destruct (PyStr.nonempty (PyStr.strip (ui_package app'))) eqn:Hne;
        [destruct (_valid_package (PyStr.strip (ui_package app'))) eqn:Hv|].
      * exists app', trace_args_required_message. split; [exact Happ|].
        intros popen. cbv beta iota zeta. rewrite ?Hpkg, ?Hargs, ?H. reflexivity.
      * exists app', package_invalid_message. split; [exact Happ|].
        intros popen. cbv beta iota zeta. rewrite ?Hpkg, ?Hargs, ?H. reflexivity.
      * exists app', package_required_message. split; [exact Happ|].
        intros popen. cbv beta iota zeta. rewrite ?Hpkg, ?Hargs, ?H. reflexivity.
Qed.

Lemma on_write_cmd_gate_witness :
  let d : Disk :=
    {| tree := {| cwd := [];
                  nodes := <[["opt"; "uaft"] := File]> (<[["opt"] := Dir]> ∅) |};
       texts := ∅ |} in
  exists app' text,
    forall popen,
      on_write_cmd "linux" (Path_of "/opt") popen
        (window "/opt/uaft" "R58M12ABCDE" "com:company") d
      = (_err app' text, d).
Proof.
  intros d.
  destruct (on_write_cmd_gate "linux" (Path_of "/opt")
              (window "/opt/uaft" "R58M12ABCDE" "com:company") d
              (or_intror (or_introl eq_refl)))
    as [app' [text [_ H]]].
  exists app', text. exact H.
Defined.

(** [write_text] where the file can be written: its parent is a directory
    and no directory is at its place. *)
Lemma write_text_command_file (d : Disk) (home : Path) (content : string) :
  is_dir (tree d) home = true ->
  is_dir (tree d) (joinpath home "UECommandLine.txt") = false ->
  exists d',
    write_text d (joinpath home "UECommandLine.txt") content = Ok d'
    /\ texts d' !! key (tree d) (joinpath home "UECommandLine.txt")
       = Some content
    /\ is_file (tree d') (joinpath home "UECommandLine.txt") = true
    /\ cwd (tree d') = cwd (tree d).
Proof.
  intros Hhome Htmp. rewrite command_file_path in *.
  assert ({| root := root home; parts := parts home |} = home) as Eh
    by (destruct home; reflexivity).
  unfold write_text, is_dir in *.
  rewrite key_snoc, Eh in *. rewrite removelast_last.
  set (k := key (tree d) home ++ ["UECommandLine.txt"]) in *.
  destruct (node_at (tree d) k) as [[|]|] eqn:Ek; [discriminate Htmp| |].
  - eexists. split; [reflexivity|]. simpl. split; [apply lookup_insert_eq|].
    split; [|reflexivity].
    unfold is_file. rewrite key_snoc, Eh. fold k. rewrite Ek. reflexivity.
  - destruct (node_at (tree d) (key (tree d) home)) as [[|]|];
      try discriminate Hhome.
    eexists. split; [reflexivity|]. simpl. split; [apply lookup_insert_eq|].
    split; [|reflexivity].
    unfold is_file.
    change (key {| cwd := cwd (tree d); nodes := <[k:=File]> (nodes (tree d)) |}
              {| root := root home; parts := parts home ++ ["UECommandLine.txt"] |})
      with (key (tree d)
              {| root := root home; parts := parts home ++ ["UECommandLine.txt"] |}).
    rewrite key_snoc, Eh. fold k. unfold k. rewrite node_at_snoc. simpl.
    rewrite lookup_insert_eq. reflexivity.
Qed.

(** X22: Once the checks have passed and the file can be written, the command
    file in the home directory holds the trimmed trace arguments when
    [on_write_cmd] is done, whether the push then succeeds, fails or
    cannot be started. *)
Theorem on_write_cmd_writes_file (platform : string) (home : Path)
  (popen : Popen) (app : App) (d : Disk) :
  is_file (tree d) (Path_of (PyStr.strip (ui_uaft_path app))) = true ->
  _valid_package (PyStr.strip (ui_package app)) = true ->
  PyStr.nonempty (PyStr.strip (ui_trace_args app)) = true ->
  is_dir (tree d) home = true ->
  is_dir (tree d) (joinpath home "UECommandLine.txt") = false ->
  let d' := snd (on_write_cmd platform home popen app d) in
  texts d' !! key (tree d) (joinpath home "UECommandLine.txt")
  = Some (PyStr.strip (ui_trace_args app))
  /\ is_file (tree d') (joinpath home "UECommandLine.txt") = true.
Proof.
  intros Hf Hv Hargs Hhome Htmp. unfold on_write_cmd.
  destruct (require_uaft_cases platform (tree d) app)
    as [[Hf' _]|[_ [app' [Hreq Happ]]]]; [congruence|].
  rewrite Hreq.
  destruct (require_uaft_fields _ _ _ _ _ Hreq) as [Hconn [Ha _]].
  unfold connection in *. injection Hconn as _ _ _ Hpkg _.
  cbv beta iota zeta.
  rewrite Hpkg, (valid_package_nonempty _ Hv), Hv, Ha, Hargs.
  simpl negb. cbv iota.
  destruct (write_text_command_file d home (PyStr.strip (ui_trace_args app))
              Hhome Htmp) as [d1 [Hw [Ht [Hfile _]]]].
  rewrite Hw.
  destruct (push_commandfile popen _ _ _ _ _ _ _); simpl; auto.
Qed.

Lemma on_write_cmd_writes_file_witness :
  let d : Disk :=
    {| tree := {| cwd := [];
                  nodes := <[["opt"; "uaft"] := File]> (<[["opt"] := Dir]> ∅) |};
       texts := ∅ |} in
  texts (snd (on_write_cmd "linux" (Path_of "/opt")
                (fun _ _ => Exited 1 "" "device offline")
                (window "/opt/uaft" "R58M12ABCDE" "com.company.game") d))
  !! ["opt"; "UECommandLine.txt"]
  = Some (PyStr.strip DEFAULT_TRACE_ARGS).
Proof.
  intros d.
  assert (is_file (tree d) (Path_of "/opt/uaft") = true) as H1
    by (vm_compute; reflexivity).
  assert (is_dir (tree d) (Path_of "/opt") = true) as H2
    by (vm_compute; reflexivity).
  assert (is_dir (tree d) (joinpath (Path_of "/opt") "UECommandLine.txt") = false)
    as H3 by (vm_compute; reflexivity).
  exact (proj1 (on_write_cmd_writes_file "linux" (Path_of "/opt")
                  (fun _ _ => Exited 1 "" "device offline")
                  (window "/opt/uaft" "R58M12ABCDE" "com.company.game") d
                  H1 eq_refl eq_refl H2 H3)).
Defined.

(** X23: What [on_write_cmd] shows after the push, where the checks have
    passed, the command file can be written (the home directory exists and
    no directory is at the file's place) and the output of the tool has
    been read and decoded: on exit code zero the log gets the line "Pushed
    UECommandLine.txt to ^commandfile" followed by the tool's output, and
    on another exit code the tool's message is reported as an error.  The
    tool is started with the connection parameters of the window, the
    sub-command "push", the path of the command file and
    "^commandfile". *)
Theorem on_write_cmd_outcome (platform : string) (home : Path)
  (popen : Popen) (app app' : App) (d : Disk) (uaft : UAFT)
  (serial ip port : option string) (pkg : string) (token : option string)
  (code : Z) (out err : string) :
  _require_uaft platform (tree d) app = (Ok uaft, app') ->
  connection app = (serial, ip, port, pkg, token) ->
  _valid_package pkg = true ->
  PyStr.nonempty (PyStr.strip (ui_trace_args app)) = true ->
  is_dir (tree d) home = true ->
  is_dir (tree d) (joinpath home "UECommandLine.txt") = false ->
  popen (_base_args uaft serial ip port (Some pkg) token
         ++ ["push"; str_of_path (joinpath home "UECommandLine.txt");
             "^commandfile"]) None
  = Exited code out err ->
  fst (on_write_cmd platform home popen app d)
  = if Z.eqb code 0
    then _log app' ("Pushed UECommandLine.txt to ^commandfile" +:+ LF +:+ out)
    else _err app' (if PyStr.is_empty err then out else err).
Proof.
  intros Hreq Hconn Hv Hargs Hhome Htmp Hrun. unfold on_write_cmd.
  rewrite Hreq.
  destruct (require_uaft_fields _ _ _ _ _ Hreq) as [Hconn' [Ha _]].
  rewrite Hconn', Hconn.
  rewrite (valid_package_nonempty _ Hv), Hv, Ha, Hargs. simpl negb. cbv iota.
  destruct (write_text_command_file d home (PyStr.strip (ui_trace_args app))
              Hhome Htmp) as [d1 [Hw _]].
  rewrite Hw. unfold push_commandfile.
  rewrite (run_exited popen _ None code out err Hrun).
  destruct (Z.eqb code 0); simpl; [reflexivity|].
  unfold py_or, PyStr.nonempty. destruct (PyStr.is_empty err); reflexivity.
Qed.

Lemma on_write_cmd_outcome_witness :
  let d : Disk :=
    {| tree := {| cwd := [];
                  nodes := <[["opt"; "uaft"] := File]> (<[["opt"] := Dir]> ∅) |};
       texts := ∅ |} in
  ui_events
    (fst (on_write_cmd "linux" (Path_of "/opt")
            (fun _ _ => Exited 0 "1 file pushed" "")
            (window "/opt/uaft" "R58M12ABCDE" "com.company.game") d))
  = [Log ("Pushed UECommandLine.txt to ^commandfile" +:+ LF +:+ "1 file pushed")].
Proof.
  intros d.
  assert (is_dir (tree d) (Path_of "/opt") = true) as H2
    by (vm_compute; reflexivity).
  assert (is_dir (tree d) (joinpath (Path_of "/opt") "UECommandLine.txt") = false)
    as H3 by (vm_compute; reflexivity).
  assert (_require_uaft "linux" (tree d)
            (window "/opt/uaft" "R58M12ABCDE" "com.company.game")
          = (Ok (mkUAFT (Path_of "/opt/uaft")),
             window "/opt/uaft" "R58M12ABCDE" "com.company.game")) as H1
    by (vm_compute; reflexivity).
  rewrite (on_write_cmd_outcome "linux" (Path_of "/opt")
             (fun _ _ => Exited 0 "1 file pushed" "")
             (window "/opt/uaft" "R58M12ABCDE" "com.company.game")
             (window "/opt/uaft" "R58M12ABCDE" "com.company.game")
             d (mkUAFT (Path_of "/opt/uaft"))
             (Some "R58M12ABCDE") None None "com.company.game" None
             0%Z "1 file pushed" "" H1 eq_refl eq_refl eq_refl H2 H3 eq_refl).
  reflexivity.
Defined.

(** ** What a valid package name is made of *)

Lemma all_chars_not_contains (q : ascii -> bool) (x : ascii) (s : string) :
  q x = false -> all_chars q s = true ->
  PyStr.contains (String x EmptyString) s = false.
Proof.
  intros Hx. induction s as [|c r IH]; [reflexivity|]. simpl all_chars.
  intros H. apply andb_true_iff in H as [Hc H].
  rewrite contains_char_cons, (IH H).
  destruct (Ascii.eqb_spec x c) as [->|_]; [congruence | reflexivity].
Qed.

Lemma dotted_chars (pieces : list string) :
  forallb segment pieces = true ->
  all_chars (fun c => word_char c || dot_char c) (dotted pieces) = true.
Proof.
  induction pieces as [|x rest IH]; [reflexivity|]. simpl. intros H.
  apply andb_true_iff in H as [Hx Hrest].
  apply andb_true_iff in Hx as [_ Hx].
  rewrite all_chars_append, (IH Hrest), andb_true_r.
  apply (all_chars_impl word_char); [|exact Hx].
  intros c ->. reflexivity.
Qed.

(** X10: A package name accepted by [_valid_package] is made of the characters
    [A-Za-z0-9_.] only: it holds no colon and no space, does not start
    with a dot, and trimming leaves it as it is, so the name checked is
    the name passed to the tool. *)
Theorem valid_package_chars (pkg : string) :
  _valid_package pkg = true ->
  all_chars (fun c => word_char c || dot_char c) pkg = true
  /\ PyStr.contains ":" pkg = false
  /\ PyStr.contains " " pkg = false
  /\ PyStr.startswith pkg "." = false
  /\ PyStr.strip pkg = pkg.
Proof.
  intros Hv.
  assert (all_chars (fun c => word_char c || dot_char c) pkg = true) as Hall.
  { apply fullmatch_Matches, package_pattern_Matches in Hv
      as [x [y [rest [Hx [Hp ->]]]]].
    rewrite all_chars_append, (dotted_chars _ Hp), andb_true_r.
    apply andb_true_iff in Hx as [_ Hx].
    apply (all_chars_impl word_char); [|exact Hx]. intros c ->. reflexivity. }
  split; [exact Hall|].
  split; [apply (all_chars_not_contains _ ":" pkg eq_refl Hall)|].
  split; [apply (all_chars_not_contains _ " " pkg eq_refl Hall)|].
  split.
  - apply fullmatch_Matches, package_pattern_Matches in Hv
      as [x [y [rest [Hx [_ ->]]]]].
    destruct x as [|c x]; [discriminate Hx|].
    apply andb_true_iff in Hx as [_ Hx]. simpl in Hx.
    apply andb_true_iff in Hx as [Hc _].
    unfold PyStr.startswith. rewrite append_cons, prefix_char.
    destruct (Ascii.eqb_spec "." c) as [<-|_]; [discriminate Hc | reflexivity].
  - apply strip_no_space. apply (valid_package_text pkg Hv).
Qed.

Lemma valid_package_chars_witness :
  PyStr.contains ":" "com.company.game_2" = false
  /\ PyStr.strip "com.company.game_2" = "com.company.game_2".
Proof.
  pose proof (valid_package_chars "com.company.game_2" eq_refl) as H.
  split; [exact (proj1 (proj2 H)) | exact (proj2 (proj2 (proj2 (proj2 H))))].
Defined.
